(** * seller-apis: reconciliation of a stock report with marketplace catalogs

    A shallow embedding of [seller.py] (Ozon) and [market.py] (Yandex
    Market), and the properties of their reconciliation, batching and
    pagination code.

    Conventions of the embedding:
    - a Python [str] is a Rocq [string], i.e. the UTF-8 bytes of the text.
      Splitting at ['.'], testing for the ASCII digits and equality of
      strings commute with UTF-8 encoding, so the byte view is exact for
      them.  [int(str)] is modelled on texts of ASCII characters, where it
      is exact; the Unicode digits and blanks that Python also accepts in
      other texts, and the digit-count limit of recent interpreters, are
      left out;
    - a raised exception is the [Raise] constructor of [result];
    - a list object that the callee mutates is passed in and handed back. *)

From Stdlib Require Import ZArith Ascii String List.
From stdpp Require Import base option list strings pretty gmap.

Local Open Scope string_scope.
Local Open Scope Z_scope.
Local Open Scope list_scope.

(** ** Python values and built-ins *)

Inductive exn : Type :=
  | ValueError
  | TypeError
  | AttributeError
  | HTTPError
  | BadZipFile
  | FileNotFoundError.

Inductive result (A : Type) : Type :=
  | Ok (a : A)
  | Raise (e : exn).
Arguments Ok {A} a.
Arguments Raise {A} e.

(** Sequencing: an exception ends the computation. *)
#[global] Instance result_bind : MBind result := fun A B k r =>
  match r with
  | Ok a => k a
  | Raise e => Raise e
  end.

(** The values a spreadsheet cell or an absent dictionary key can give.
    Floating-point cells are not modelled. *)
Inductive pyval : Type :=
  | PyNone
  | PyStr (s : string)
  | PyInt (z : Z).

(** A row of the report: a [dict] from column header to cell. *)
Abbreviation watch := (gmap string pyval).

(** [d.get(key)]: [None] when the key is absent. *)
Definition dict_get (key : string) (d : watch) : pyval :=
  default PyNone (d !! key).

(** [str(v)] *)
Definition py_str (v : pyval) : string :=
  match v with
  | PyNone => "None"
  | PyStr s => s
  | PyInt z => pretty z
  end.

Definition is_digit (c : ascii) : bool :=
  let n := N_of_ascii c in ((48 <=? n) && (n <=? 57))%N.

(** The blanks that [int] strips from an ASCII text: tab, newline, vertical
    tab, form feed, carriage return and space. *)
Definition is_space (c : ascii) : bool :=
  let n := N_of_ascii c in
  (((9 <=? n) && (n <=? 13)) || (n =? 32))%N.

Definition digit_value (c : ascii) : Z := Z.of_N (N_of_ascii c) - 48.

Fixpoint drop_spaces (l : list ascii) : list ascii :=
  match l with
  | c :: l' => if is_space c then drop_spaces l' else l
  | [] => []
  end.

Definition strip (l : list ascii) : list ascii :=
  rev (drop_spaces (rev (drop_spaces l))).

(** Decimal digits with single underscores between them; [after_digit]
    tells whether the previous character was a digit. *)
Fixpoint parse_digits (acc : Z) (after_digit : bool) (l : list ascii)
  : option Z :=
  match l with
  | [] => if after_digit then Some acc else None
  | c :: l' =>
      if is_digit c then parse_digits (10 * acc + digit_value c) true l'
      else if Ascii.eqb c "_" then
        if after_digit then parse_digits acc false l' else None
      else None
  end.

(** [int(s)] in base ten: blanks around, an optional sign, the digits. *)
Definition parse_int (s : string) : option Z :=
  match strip (list_ascii_of_string s) with
  | c :: l =>
      if Ascii.eqb c "-" then Z.opp <$> parse_digits 0 false l
      else if Ascii.eqb c "+" then parse_digits 0 false l
      else parse_digits 0 false (c :: l)
  | [] => None
  end.

(** [int(v)] *)
Definition py_int (v : pyval) : result Z :=
  match v with
  | PyNone => Raise TypeError
  | PyInt z => Ok z
  | PyStr s =>
      match parse_int s with
      | Some z => Ok z
      | None => Raise ValueError
      end
  end.

(** [l.remove(x)]: drops the first occurrence, [ValueError] when there is
    none. *)
Fixpoint list_remove (x : string) (l : list string) : result (list string) :=
  match l with
  | [] => Raise ValueError
  | y :: l' =>
      if decide (x = y) then Ok l'
      else l'' ← list_remove x l'; Ok (y :: l'')
  end.

(** [range(start, stop, step)]: its length as the interpreter computes it,
    its [k]-th item [start + k * step]; a zero step is refused. *)
Definition range_length (start stop step : Z) : nat :=
  Z.to_nat (if 0 <? step then (stop - start + step - 1) / step
            else (start - stop - step - 1) / (- step)).

Definition py_range (start stop step : Z) : result (list Z) :=
  if decide (step = 0) then Raise ValueError
  else Ok (map (fun k => start + Z.of_nat k * step)
               (seq 0 (range_length start stop step))).

(** A slice bound brought into [0 .. len]: negative bounds count from the
    end. *)
Definition clamp_index (len i : Z) : Z :=
  if i <? 0 then Z.max 0 (i + len) else Z.min i len.

(** [l[i:j]] *)
Definition py_slice {A : Type} (l : list A) (i j : Z) : list A :=
  let len := Z.of_nat (length l) in
  let lo := clamp_index len i in
  let hi := clamp_index len j in
  take (Z.to_nat (hi - lo)) (drop (Z.to_nat lo) l).

(** [s.split(sep)] for a one-character separator. *)
Fixpoint split_on (sep : ascii) (l : list ascii) : list (list ascii) :=
  match l with
  | [] => [[]]
  | c :: l' =>
      if Ascii.eqb c sep then [] :: split_on sep l'
      else match split_on sep l' with
           | piece :: pieces => (c :: piece) :: pieces
           | [] => [[c]]
           end
  end.

(** ** seller.py *)

Module Seller.

Record stock_entry : Type := { offer_id : string; stock : Z }.

Record price_entry : Type := {
  auto_action_enabled : string;
  currency_code : string;
  price_offer_id : string;
  old_price : string;
  price : string
}.

(** [price_conversion]: [re.sub("[^0-9]", "", price.split(".")[0])]. A value
    that is not a [str] has no [split]. *)
Definition price_conversion (price : pyval) : result string :=
  match price with
  | PyStr s =>
      Ok (string_of_list_ascii
            (List.filter is_digit
               (hd [] (split_on "." (list_ascii_of_string s)))))
  | PyNone | PyInt _ => Raise AttributeError
  end.

(** [divide], run to its end as [list(divide(lst, n))] does. *)
Definition divide {A : Type} (lst : list A) (n : Z) : result (list (list A)) :=
  starts ← py_range 0 (Z.of_nat (length lst)) n;
  Ok (map (fun i => py_slice lst i (i + n)) starts).

(** The first loop of [create_stocks]. It returns with the list [stocks] and
    leaves the caller's list object [offer_ids] as the second component,
    also when it raises. *)
Fixpoint create_stocks_matched (watch_remnants : list watch)
    (stocks : list stock_entry) (offer_ids : list string)
  : result (list stock_entry) * list string :=
  match watch_remnants with
  | [] => (Ok stocks, offer_ids)
  | w :: rest =>
      if decide (py_str (dict_get "Код" w) ∈ offer_ids) then
        let count := py_str (dict_get "Количество" w) in
        match (if decide (count = ">10") then Ok 100
               else if decide (count = "1") then Ok 0
               else py_int (dict_get "Количество" w)) with
        | Raise e => (Raise e, offer_ids)
        | Ok stock =>
            let stocks :=
              stocks ++ [{| offer_id := py_str (dict_get "Код" w);
                            stock := stock |}] in
            match list_remove (py_str (dict_get "Код" w)) offer_ids with
            | Raise e => (Raise e, offer_ids)
            | Ok offer_ids => create_stocks_matched rest stocks offer_ids
            end
        end
      else create_stocks_matched rest stocks offer_ids
  end.

Definition create_stocks (watch_remnants : list watch)
    (offer_ids : list string) : result (list stock_entry) * list string :=
  match create_stocks_matched watch_remnants [] offer_ids with
  | (Ok stocks, offer_ids) =>
      (Ok (fold_left
             (fun stocks offer_id =>
                stocks ++ [{| offer_id := offer_id; stock := 0 |}])
             offer_ids stocks),
       offer_ids)
  | (Raise e, offer_ids) => (Raise e, offer_ids)
  end.

Fixpoint create_prices_from (watch_remnants : list watch)
    (prices : list price_entry) (offer_ids : list string)
  : result (list price_entry) :=
  match watch_remnants with
  | [] => Ok prices
  | w :: rest =>
      if decide (py_str (dict_get "Код" w) ∈ offer_ids) then
        p ← price_conversion (dict_get "Цена" w);
        create_prices_from rest
          (prices ++ [{| auto_action_enabled := "UNKNOWN";
                         currency_code := "RUB";
                         price_offer_id := py_str (dict_get "Код" w);
                         old_price := "0";
                         price := p |}])
          offer_ids
      else create_prices_from rest prices offer_ids
  end.

Definition create_prices (watch_remnants : list watch)
    (offer_ids : list string) : result (list price_entry) :=
  create_prices_from watch_remnants [] offer_ids.

(** The requests of [main], given what [get_offer_ids] and [download_stock]
    returned and a marketplace that accepts every update: the batches sent
    so far, and whether the [try] body ended or raised. Both reconciliation
    calls receive the same list object [offer_ids]. *)
Inductive api_call : Type :=
  | UpdateStocks (stocks : list stock_entry)
  | UpdatePrice (prices : list price_entry).

Definition main_sync (offer_ids : list string) (watch_remnants : list watch)
  : list api_call * result unit :=
  let '(stocks, offer_ids) := create_stocks watch_remnants offer_ids in
  match stocks ← stocks; divide stocks 100 with
  | Raise e => ([], Raise e)
  | Ok stock_batches =>
      let sent := map UpdateStocks stock_batches in
      match prices ← create_prices watch_remnants offer_ids;
            divide prices 900 with
      | Raise e => (sent, Raise e)
      | Ok price_batches => (sent ++ map UpdatePrice price_batches, Ok ())
      end
  end.

(** Pagination. The marketplace is a sequence of replies: [responses k c] is
    what the [k]-th call of [get_product_list] returns when it is sent the
    cursor [c] ([Raise] when [raise_for_status] raises). The [while True]
    loop is run with a bound [fuel] on its iterations; [None] means that
    the bound was reached with the loop still running. *)
Record product : Type := { product_offer_id : string }.

Record product_page : Type := {
  resp_items : list product;
  resp_total : Z;
  resp_last_id : string
}.

Section Pagination.

Variable responses : nat -> string -> result product_page.

Definition get_product_list (call : nat) (last_id : string)
  : result product_page := responses call last_id.

Fixpoint get_offer_ids_loop (fuel call : nat) (last_id : string)
    (product_list : list product) : option (result (list product)) :=
  match fuel with
  | O => None
  | S fuel =>
      match get_product_list call last_id with
      | Raise e => Some (Raise e)
      | Ok some_prod =>
          let product_list := product_list ++ resp_items some_prod in
          if decide (resp_total some_prod = Z.of_nat (length product_list))
          then Some (Ok product_list)
          else get_offer_ids_loop fuel (S call) (resp_last_id some_prod)
                 product_list
      end
  end.

Definition get_offer_ids (fuel : nat) : option (result (list string)) :=
  match get_offer_ids_loop fuel 0 "" [] with
  | Some (Ok product_list) => Some (Ok (map product_offer_id product_list))
  | Some (Raise e) => Some (Raise e)
  | None => None
  end.

End Pagination.

(** [download_stock] on a working directory [fs] (file name to content).
    [response] is the outcome of the GET with [raise_for_status], [unzip]
    opens the archive, [read_excel] parses the spreadsheet. The directory
    is handed back, also when the function raises. The members of the
    archive are taken with plain file names, under which they are written,
    and the extraction is taken to run to its end. *)
Section DownloadStock.

Variable content : Type.
Variable unzip : content -> result (list (string * content)).
Variable read_excel : content -> result (list watch).

Definition extractall (archive : list (string * content))
    (fs : gmap string content) : gmap string content :=
  fold_left (fun fs member => <[member.1 := member.2]> fs) archive fs.

Definition download_stock (response : result content)
    (fs : gmap string content) : result (list watch) * gmap string content :=
  match response ≫= unzip with
  | Raise e => (Raise e, fs)
  | Ok archive =>
      let fs := extractall archive fs in
      match fs !! "ostatki.xls" with
      | None => (Raise FileNotFoundError, fs)
      | Some excel_file =>
          match read_excel excel_file with
          | Raise e => (Raise e, fs)
          | Ok watch_remnants => (Ok watch_remnants, delete "ostatki.xls" fs)
          end
      end
  end.

End DownloadStock.

(** The loop [for batch in list(divide(...)): update(batch, ...)]. [send]
    is what the marketplace answers to a request ([Raise] when
    [raise_for_status] or the decoding of the answer raises). The requests
    made are handed back with the outcome; the request that was refused is
    the last of them. *)
Fixpoint send_each {B : Type} (send : B -> result unit) (batches : list B)
  : list B * result unit :=
  match batches with
  | [] => ([], Ok ())
  | batch :: rest =>
      match send batch with
      | Raise e => ([batch], Raise e)
      | Ok _ =>
          let '(sent, outcome) := send_each send rest in
          (batch :: sent, outcome)
      end
  end.

(** The body of the coroutine [upload_prices], as it runs when awaited.
    [fetched] is what [get_offer_ids] gave. The requests made to
    [update_price] come with the outcome. *)
Definition upload_prices (update_price : list price_entry -> result unit)
    (fetched : result (list string)) (watch_remnants : list watch)
  : list (list price_entry) * result (list price_entry) :=
  match offer_ids ← fetched;
        prices ← create_prices watch_remnants offer_ids;
        batches ← divide prices 1000;
        Ok (prices, batches) with
  | Raise e => ([], Raise e)
  | Ok (prices, batches) =>
      let '(sent, outcome) := send_each update_price batches in
      (sent, match outcome with
             | Ok _ => Ok prices
             | Raise e => Raise e
             end)
  end.

(** The body of the coroutine [upload_stocks]: it returns the entries with
    a stock other than zero, and all the entries. *)
Definition upload_stocks (update_stocks : list stock_entry -> result unit)
    (fetched : result (list string)) (watch_remnants : list watch)
  : list (list stock_entry)
    * result (list stock_entry * list stock_entry) :=
  match offer_ids ← fetched;
        stocks ← (create_stocks watch_remnants offer_ids).1;
        batches ← divide stocks 100;
        Ok (stocks, batches) with
  | Raise e => ([], Raise e)
  | Ok (stocks, batches) =>
      let '(sent, outcome) := send_each update_stocks batches in
      (sent, match outcome with
             | Ok _ =>
                 let not_empty :=
                   List.filter (fun entry => negb (Z.eqb (stock entry) 0))
                     stocks in
                 Ok (not_empty, stocks)
             | Raise e => Raise e
             end)
  end.

End Seller.

(** ** market.py *)

Module Market.

Record stock_item : Type := {
  count : Z;
  item_type : string;
  updatedAt : string
}.

Record stock_entry : Type := {
  sku : string;
  warehouseId : string;
  stock_items : list stock_item
}.

Record price_value : Type := { value : Z; currencyId : string }.

Record price_entry : Type := { price_id : string; price : price_value }.

(** The first loop of [create_stocks]; [date] is the clock reading taken
    before the loop. *)
Fixpoint create_stocks_matched (watch_remnants : list watch)
    (warehouse_id date : string)
    (stocks : list stock_entry) (offer_ids : list string)
  : result (list stock_entry) * list string :=
  match watch_remnants with
  | [] => (Ok stocks, offer_ids)
  | w :: rest =>
      if decide (py_str (dict_get "Код" w) ∈ offer_ids) then
        let count := py_str (dict_get "Количество" w) in
        match (if decide (count = ">10") then Ok 100
               else if decide (count = "1") then Ok 0
               else py_int (dict_get "Количество" w)) with
        | Raise e => (Raise e, offer_ids)
        | Ok stock =>
            let stocks :=
              stocks ++ [{| sku := py_str (dict_get "Код" w);
                            warehouseId := warehouse_id;
                            stock_items := [{| count := stock;
                                               item_type := "FIT";
                                               updatedAt := date |}] |}] in
            match list_remove (py_str (dict_get "Код" w)) offer_ids with
            | Raise e => (Raise e, offer_ids)
            | Ok offer_ids =>
                create_stocks_matched rest warehouse_id date stocks offer_ids
            end
        end
      else create_stocks_matched rest warehouse_id date stocks offer_ids
  end.

(** [utcnow] is what the clock gives, already formatted. *)
Definition create_stocks (utcnow : string) (watch_remnants : list watch)
    (offer_ids : list string) (warehouse_id : string)
  : result (list stock_entry) * list string :=
  let date := utcnow in
  match create_stocks_matched watch_remnants warehouse_id date [] offer_ids
  with
  | (Ok stocks, offer_ids) =>
      (Ok (fold_left
             (fun stocks offer_id =>
                stocks ++ [{| sku := offer_id;
                              warehouseId := warehouse_id;
                              stock_items := [{| count := 0;
                                                 item_type := "FIT";
                                                 updatedAt := date |}] |}])
             offer_ids stocks),
       offer_ids)
  | (Raise e, offer_ids) => (Raise e, offer_ids)
  end.

Fixpoint create_prices_from (watch_remnants : list watch)
    (prices : list price_entry) (offer_ids : list string)
  : result (list price_entry) :=
  match watch_remnants with
  | [] => Ok prices
  | w :: rest =>
      if decide (py_str (dict_get "Код" w) ∈ offer_ids) then
        digits ← Seller.price_conversion (dict_get "Цена" w);
        v ← py_int (PyStr digits);
        create_prices_from rest
          (prices ++ [{| price_id := py_str (dict_get "Код" w);
                         price := {| value := v; currencyId := "RUR" |} |}])
          offer_ids
      else create_prices_from rest prices offer_ids
  end.

Definition create_prices (watch_remnants : list watch)
    (offer_ids : list string) : result (list price_entry) :=
  create_prices_from watch_remnants [] offer_ids.

(** Pagination by page token; [not page] holds of [None] and of the empty
    string. *)
Record offer : Type := { shopSku : string }.

Record offer_page : Type := {
  offerMappingEntries : list offer;
  nextPageToken : option string
}.

Definition falsy (page : option string) : bool :=
  match page with
  | None => true
  | Some s => bool_decide (s = "")
  end.

Section Pagination.

Variable responses : nat -> option string -> result offer_page.

Definition get_product_list (call : nat) (page : option string)
  : result offer_page := responses call page.

Fixpoint get_offer_ids_loop (fuel call : nat) (page : option string)
    (product_list : list offer) : option (result (list offer)) :=
  match fuel with
  | O => None
  | S fuel =>
      match get_product_list call page with
      | Raise e => Some (Raise e)
      | Ok some_prod =>
          let product_list := product_list ++ offerMappingEntries some_prod in
          let page := nextPageToken some_prod in
          if falsy page then Some (Ok product_list)
          else get_offer_ids_loop fuel (S call) page product_list
      end
  end.

Definition get_offer_ids (fuel : nat) : option (result (list string)) :=
  match get_offer_ids_loop fuel 0 (Some "") [] with
  | Some (Ok product_list) => Some (Ok (map shopSku product_list))
  | Some (Raise e) => Some (Raise e)
  | None => None
  end.

End Pagination.

(** The body of the coroutine [upload_prices], as it runs when awaited. *)
Definition upload_prices (update_price : list price_entry -> result unit)
    (fetched : result (list string)) (watch_remnants : list watch)
  : list (list price_entry) * result (list price_entry) :=
  match offer_ids ← fetched;
        prices ← create_prices watch_remnants offer_ids;
        batches ← Seller.divide prices 500;
        Ok (prices, batches) with
  | Raise e => ([], Raise e)
  | Ok (prices, batches) =>
      let '(sent, outcome) := Seller.send_each update_price batches in
      (sent, match outcome with
             | Ok _ => Ok prices
             | Raise e => Raise e
             end)
  end.

End Market.

(** ** Vocabulary of the statements *)

(** The code of a row, as both loops compare it: [str(watch.get("Код"))]. *)
Definition code (w : watch) : string := py_str (dict_get "Код" w).

Definition quantity (w : watch) : pyval := dict_get "Количество" w.

(** The quantity rule, as both loops have it inline (lines 252-258 of
    seller.py, lines 191-197 of market.py): the stock that a quantity cell
    stands for. *)
Definition stock_of_quantity (quantity : pyval) : result Z :=
  let count := py_str quantity in
  if decide (count = ">10") then Ok 100
  else if decide (count = "1") then Ok 0
  else py_int quantity.

(** The two [create_stocks] differ only in the entry they build from an
    identifier and a stock. [reconcile] is their common shape, with the
    second loop written as the list it appends. *)
Section Reconcile.

Context {E : Type} (entry : string -> Z -> E).

Fixpoint reconcile_matched (watch_remnants : list watch) (stocks : list E)
    (offer_ids : list string) : result (list E) * list string :=
  match watch_remnants with
  | [] => (Ok stocks, offer_ids)
  | w :: rest =>
      if decide (code w ∈ offer_ids) then
        match stock_of_quantity (quantity w) with
        | Raise e => (Raise e, offer_ids)
        | Ok stock =>
            match list_remove (code w) offer_ids with
            | Raise e => (Raise e, offer_ids)
            | Ok offer_ids =>
                reconcile_matched rest (stocks ++ [entry (code w) stock])
                  offer_ids
            end
        end
      else reconcile_matched rest stocks offer_ids
  end.

Definition reconcile (watch_remnants : list watch) (offer_ids : list string)
  : result (list E) * list string :=
  match reconcile_matched watch_remnants [] offer_ids with
  | (Ok stocks, offer_ids) =>
      (Ok (stocks ++ map (fun offer_id => entry offer_id 0) offer_ids),
       offer_ids)
  | (Raise e, offer_ids) => (Raise e, offer_ids)
  end.

End Reconcile.

Definition seller_entry (offer_id : string) (stock : Z) : Seller.stock_entry :=
  {| Seller.offer_id := offer_id; Seller.stock := stock |}.

Definition market_entry (warehouse_id date offer_id : string) (stock : Z)
  : Market.stock_entry :=
  {| Market.sku := offer_id;
     Market.warehouseId := warehouse_id;
     Market.stock_items := [{| Market.count := stock;
                               Market.item_type := "FIT";
                               Market.updatedAt := date |}] |}.

(** The stock of a Yandex entry: [stock.get("items")[0].get("count")]. *)
Definition market_count (e : Market.stock_entry) : Z :=
  match Market.stock_items e with
  | item :: _ => Market.count item
  | [] => 0
  end.

(** A row with the three columns that the programs read. *)
Definition row (kod kolichestvo tsena : pyval) : watch :=
  <["Код" := kod]> (<["Количество" := kolichestvo]> (<["Цена" := tsena]> ∅)).


(** A quantity cell that reads as a negative number: a negative integer, or
    a text whose first character after the leading blanks is a minus. *)
Definition negative_quantity (v : pyval) : Prop :=
  match v with
  | PyNone => False
  | PyInt z => z < 0
  | PyStr q => exists l, strip (list_ascii_of_string q) = "-"%char :: l
  end.

(** [reconciled entry R ids out ids']: the output [out] is the entries of
    some rows [matched] of [R], in the order of [R] and each with the stock
    of its quantity, followed by the zero entries of [ids'], which is what
    is left of [ids], in the order of [ids], once one occurrence of each
    matched code is taken out; and no code of a row is only zero-filled. *)
Definition reconciled {E : Type} (entry : string -> Z -> E)
    (R : list watch) (ids : list string) (out : list E) (ids' : list string)
  : Prop :=
  exists matched : list (watch * Z),
    out = map (fun m => entry (code m.1) m.2) matched
          ++ map (fun offer_id => entry offer_id 0) ids'
    /\ matched.*1 `sublist_of` R
    /\ Forall (fun m => stock_of_quantity (quantity m.1) = Ok m.2) matched
    /\ ids' `sublist_of` ids
    /\ ids ≡ₚ map code matched.*1 ++ ids'
    /\ Forall (fun w => code w ∈ ids -> code w ∈ map code matched.*1) R.

(** A Yandex entry with the time stamps of its items blanked, and a run
    with the entries of its output so treated. *)
Definition erase_timestamp (e : Market.stock_entry) : Market.stock_entry :=
  {| Market.sku := Market.sku e;
     Market.warehouseId := Market.warehouseId e;
     Market.stock_items :=
       map (fun item => {| Market.count := Market.count item;
                           Market.item_type := Market.item_type item;
                           Market.updatedAt := "" |})
           (Market.stock_items e) |}.

Definition map_run {E F : Type} (f : E -> F)
    (run : result (list E) * list string) : result (list F) * list string :=
  (match run.1 with
   | Ok out => Ok (map f out)
   | Raise err => Raise err
   end, run.2).

(** The text ["<digits>[' digits]*.<digits> <suffix>"] of a price: the
    first digit group [g0], the further groups [gs] each after an
    apostrophe, the point, the fraction [frac], a blank and the suffix. *)
Definition price_text (g0 : list ascii) (gs : list (list ascii))
    (frac suffix : list ascii) : string :=
  string_of_list_ascii
    (g0 ++ concat (map (fun g => "'"%char :: g) gs)
        ++ "."%char :: frac ++ " "%char :: suffix).

(** The number that a string of decimal digits writes. *)
Definition digits_value (l : list ascii) : Z :=
  fold_left (fun acc c => 10 * acc + digit_value c) l 0.

Definition all_digits (l : list ascii) : Prop :=
  Forall (fun c => is_digit c = true) l.

(** The course of a pagination, read off the replies: the cursor sent with
    call [k], the reply to it, the products gathered before call [k],
    whether the loop leaves at call [k], and what it then returns. *)
Section OzonCourse.

Variable responses : nat -> string -> result Seller.product_page.

Fixpoint ozon_cursor (k : nat) : string :=
  match k with
  | O => ""
  | S k' =>
      match responses k' (ozon_cursor k') with
      | Ok p => Seller.resp_last_id p
      | Raise _ => ""
      end
  end.

Definition ozon_reply (k : nat) : result Seller.product_page :=
  responses k (ozon_cursor k).

Fixpoint ozon_fetched (k : nat) : list Seller.product :=
  match k with
  | O => []
  | S k' =>
      ozon_fetched k'
      ++ match ozon_reply k' with
         | Ok p => Seller.resp_items p
         | Raise _ => []
         end
  end.

(** The reply to call [k] raises, or its total is the number of products
    gathered up to and with it. *)
Definition ozon_stops (k : nat) : bool :=
  match ozon_reply k with
  | Ok p =>
      bool_decide (Seller.resp_total p
                   = Z.of_nat (length (ozon_fetched (S k))))
  | Raise _ => true
  end.

Definition ozon_outcome (k : nat) : result (list string) :=
  match ozon_reply k with
  | Ok _ => Ok (map Seller.product_offer_id (ozon_fetched (S k)))
  | Raise e => Raise e
  end.

End OzonCourse.

Section YandexCourse.

Variable responses : nat -> option string -> result Market.offer_page.

Fixpoint yandex_cursor (k : nat) : option string :=
  match k with
  | O => Some ""
  | S k' =>
      match responses k' (yandex_cursor k') with
      | Ok p => Market.nextPageToken p
      | Raise _ => None
      end
  end.

Definition yandex_reply (k : nat) : result Market.offer_page :=
  responses k (yandex_cursor k).

Fixpoint yandex_fetched (k : nat) : list Market.offer :=
  match k with
  | O => []
  | S k' =>
      yandex_fetched k'
      ++ match yandex_reply k' with
         | Ok p => Market.offerMappingEntries p
         | Raise _ => []
         end
  end.

(** The reply to call [k] raises, or its next-page token is empty. *)
Definition yandex_stops (k : nat) : bool :=
  match yandex_reply k with
  | Ok p => Market.falsy (Market.nextPageToken p)
  | Raise _ => true
  end.

Definition yandex_outcome (k : nat) : result (list string) :=
  match yandex_reply k with
  | Ok _ => Ok (map Market.shopSku (yandex_fetched (S k)))
  | Raise e => Raise e
  end.

End YandexCourse.

(** A marketplace that always reports one product and sends none, and one
    that always names a next page. *)
Definition ozon_stuck (call : nat) (last_id : string)
  : result Seller.product_page :=
  Ok {| Seller.resp_items := []; Seller.resp_total := 1;
        Seller.resp_last_id := "" |}.

Definition yandex_stuck (call : nat) (page : option string)
  : result Market.offer_page :=
  Ok {| Market.offerMappingEntries := [];
        Market.nextPageToken := Some "next" |}.

(** A price cell that holds a text with at least one digit before its first
    point. *)
Definition has_price_digits (v : pyval) : Prop :=
  exists s d, v = PyStr s /\ Seller.price_conversion (PyStr s) = Ok d
              /\ d <> "".


(** * Properties *)

(** ** The built-ins *)

Lemma list_remove_elem_of x l :
  x ∈ l -> exists l', list_remove x l = Ok l'.
Proof.
  induction l as [|y l IH]; intros Hin; [by apply elem_of_nil in Hin|].
  simpl. destruct (decide (x = y)) as [->|Hne]; [by eexists|].
  apply elem_of_cons in Hin as [?|Hin]; [done|].
  destruct (IH Hin) as [l' ->]. by eexists.
Qed.

Lemma list_remove_Ok x l l' :
  list_remove x l = Ok l' ->
  l ≡ₚ x :: l' /\ l' `sublist_of` l.
Proof.
  revert l'. induction l as [|y l IH]; intros l' H; [done|].
  simpl in H. destruct (decide (x = y)) as [->|Hne].
  - injection H as <-. split; [done|]. by apply sublist_cons.
  - destruct (list_remove x l) as [l''|e] eqn:Hrm; [|done].
    injection H as <-. destruct (IH _ eq_refl) as [Hp Hs]. split.
    + rewrite Hp. apply Permutation_swap.
    + by apply sublist_skip.
Qed.

Lemma list_remove_NoDup x l l' :
  NoDup l -> list_remove x l = Ok l' -> (x ∉ l') /\ NoDup l'.
Proof.
  intros Hnd Hrm. apply list_remove_Ok in Hrm as [Hp _].
  rewrite Hp in Hnd. by apply NoDup_cons in Hnd.
Qed.

Lemma fold_left_snoc {A B : Type} (f : B -> A) (l : list B) (acc : list A) :
  fold_left (fun acc x => acc ++ [f x]) l acc = acc ++ map f l.
Proof.
  revert acc. induction l as [|x l IH]; intros acc; simpl.
  - by rewrite app_nil_r.
  - by rewrite IH, <- app_assoc.
Qed.

(** ** The two loops are instances of [reconcile] *)

Lemma seller_matched_reconcile R stocks ids :
  Seller.create_stocks_matched R stocks ids
  = reconcile_matched seller_entry R stocks ids.
Proof.
  revert stocks ids. induction R as [|w R IH]; intros stocks ids; [done|].
  simpl. fold (code w) (quantity w).
  change (if decide (py_str (quantity w) = ">10") then Ok 100
          else if decide (py_str (quantity w) = "1") then Ok 0
          else py_int (quantity w))
    with (stock_of_quantity (quantity w)).
  repeat case_match; auto.
Qed.

Lemma seller_create_stocks_reconcile R ids :
  Seller.create_stocks R ids = reconcile seller_entry R ids.
Proof.
  unfold Seller.create_stocks, reconcile.
  rewrite seller_matched_reconcile.
  destruct (reconcile_matched _ _ _ _) as [[stocks|e] ids']; [|done].
  by rewrite (fold_left_snoc (fun c => seller_entry c 0)).
Qed.

Lemma market_matched_reconcile R wh date stocks ids :
  Market.create_stocks_matched R wh date stocks ids
  = reconcile_matched (market_entry wh date) R stocks ids.
Proof.
  revert stocks ids. induction R as [|w R IH]; intros stocks ids; [done|].
  simpl. fold (code w) (quantity w).
  change (if decide (py_str (quantity w) = ">10") then Ok 100
          else if decide (py_str (quantity w) = "1") then Ok 0
          else py_int (quantity w))
    with (stock_of_quantity (quantity w)).
  repeat case_match; auto.
Qed.

Lemma market_create_stocks_reconcile now R ids wh :
  Market.create_stocks now R ids wh = reconcile (market_entry wh now) R ids.
Proof.
  unfold Market.create_stocks, reconcile.
  rewrite market_matched_reconcile.
  destruct (reconcile_matched _ _ _ _) as [[stocks|e] ids']; [|done].
  by rewrite (fold_left_snoc (fun c => market_entry wh now c 0)).
Qed.

Example py_int_ex1 : py_int (PyStr " 12_0 ") = Ok 120.
Proof. reflexivity. Qed.
Example py_int_ex2 : py_int (PyStr "-5") = Ok (-5).
Proof. reflexivity. Qed.
Example py_int_ex3 : py_int (PyStr "1__0") = Raise ValueError.
Proof. reflexivity. Qed.
Example py_int_tab : py_int (PyStr (String (ascii_of_nat 9) "7")) = Ok 7.
Proof. reflexivity. Qed.
Example py_int_unit_separator :
  py_int (PyStr (String (ascii_of_nat 31) "7")) = Raise ValueError.
Proof. reflexivity. Qed.
Example py_str_ex : py_str (PyInt (-17)) = "-17".
Proof. reflexivity. Qed.
Example dict_get_ex :
  dict_get "Код" (<["Код" := PyStr "A"]> ∅) = PyStr "A"
  /\ dict_get "Цена" ((<["Код" := PyStr "A"]> ∅) : watch) = PyNone.
Proof. split; reflexivity. Qed.

(** ** The shape of a reconciliation run *)




Lemma reconcile_cons_unmatched {E : Type} (entry : string -> Z -> E) w R ids :
  code w ∉ ids -> reconcile entry (w :: R) ids = reconcile entry R ids.
Proof. intros Hin. unfold reconcile. simpl. by rewrite decide_False. Qed.

(** What a run that returns has done: [matched] lists the rows it matched
    with the stock it gave them, [ids'] is the identifier list it leaves. *)
Lemma reconcile_matched_Ok {E : Type} (entry : string -> Z -> E)
    R stocks ids out ids' :
  reconcile_matched entry R stocks ids = (Ok out, ids') ->
  exists matched : list (watch * Z),
    out = stocks ++ map (fun m => entry (code m.1) m.2) matched
    /\ matched.*1 `sublist_of` R
    /\ Forall (fun m => stock_of_quantity (quantity m.1) = Ok m.2) matched
    /\ ids' `sublist_of` ids
    /\ ids ≡ₚ map code matched.*1 ++ ids'
    /\ Forall (fun w => code w ∈ ids -> code w ∈ map code matched.*1) R.
Proof.
  revert stocks ids. induction R as [|w R IH]; intros stocks ids H; simpl in H.
  - injection H as <- <-. exists []. simpl. by rewrite app_nil_r.
  - destruct (decide (code w ∈ ids)) as [Hin|Hin].
    + destruct (stock_of_quantity (quantity w)) as [z|e] eqn:Hz; [|done].
      destruct (list_remove (code w) ids) as [ids1|e] eqn:Hrm; [|done].
      apply list_remove_Ok in Hrm as [Hp Hs].
      destruct (IH _ _ H) as (matched & -> & Hsub & Hall & Hs' & Hp' & Hcov).
      exists ((w, z) :: matched). simpl. split_and!.
      * by rewrite <- app_assoc.
      * by apply sublist_skip.
      * by constructor.
      * by etrans.
      * by rewrite Hp, Hp'.
      * constructor; [intros _; apply elem_of_cons; by left|].
        eapply Forall_impl; [exact Hcov|]. intros w' Hw' Hin'.
        apply elem_of_cons. destruct (decide (code w' = code w)); [by left|].
        right. apply Hw'. rewrite Hp in Hin'.
        by apply elem_of_cons in Hin' as [?|?].
    + destruct (IH _ _ H) as (matched & -> & Hsub & Hall & Hs' & Hp' & Hcov).
      exists matched. split_and!; auto; [by apply sublist_cons|].
      by constructor.
Qed.

Lemma reconcile_Ok {E : Type} (entry : string -> Z -> E) R ids out ids' :
  reconcile entry R ids = (Ok out, ids') -> reconciled entry R ids out ids'.
Proof.
  unfold reconcile. intros H.
  destruct (reconcile_matched entry R [] ids) as [[stocks|e] ids1] eqn:Hm;
    [|done].
  injection H as <- <-.
  destruct (reconcile_matched_Ok _ _ _ _ _ _ Hm) as (matched & -> & ?).
  by exists matched.
Qed.

(** With an identifier list free of duplicates, no row's code is left in the
    list once the first loop is through. *)
Lemma reconcile_matched_NoDup {E : Type} (entry : string -> Z -> E)
    R stocks ids out ids' :
  NoDup ids ->
  reconcile_matched entry R stocks ids = (Ok out, ids') ->
  forall w, w ∈ R -> code w ∉ ids'.
Proof.
  revert stocks ids. induction R as [|w R IH]; intros stocks ids Hnd H w' Hw'.
  { by apply elem_of_nil in Hw'. }
  simpl in H. destruct (decide (code w ∈ ids)) as [Hin|Hin].
  - destruct (stock_of_quantity (quantity w)) as [z|e]; [|done].
    destruct (list_remove (code w) ids) as [ids1|e] eqn:Hrm; [|done].
    destruct (list_remove_NoDup _ _ _ Hnd Hrm) as [Hout Hnd1].
    apply elem_of_cons in Hw' as [->|Hw']; [|by eapply IH].
    destruct (reconcile_matched_Ok _ _ _ _ _ _ H) as (? & _ & _ & _ & Hs & _).
    intros Hc. apply Hout. by eapply elem_of_sublist.
  - apply elem_of_cons in Hw' as [->|Hw']; [|by eapply IH].
    destruct (reconcile_matched_Ok _ _ _ _ _ _ H) as (? & _ & _ & _ & Hs & _).
    intros Hc. apply Hin. by eapply elem_of_sublist.
Qed.

(** ** The examples of the docstrings *)

Example seller_create_stocks_doc :
  Seller.create_stocks
    [row (PyStr "A123") (PyStr ">10") PyNone;
     row (PyStr "B456") (PyStr "1") PyNone]
    ["A123"; "B456"; "C789"]
  = (Ok [seller_entry "A123" 100; seller_entry "B456" 0;
         seller_entry "C789" 0],
     ["C789"]).
Proof. vm_compute. reflexivity. Qed.

Example market_create_stocks_doc :
  Market.create_stocks "2025-10-19T12:00:00Z"
    [row (PyStr "A123") (PyStr ">10") PyNone] ["A123"; "B456"] "1"
  = (Ok [market_entry "1" "2025-10-19T12:00:00Z" "A123" 100;
         market_entry "1" "2025-10-19T12:00:00Z" "B456" 0],
     ["B456"]).
Proof. vm_compute. reflexivity. Qed.

Example seller_create_prices_doc :
  Seller.create_prices
    [row (PyStr "A123") PyNone (PyStr "5'990.00 руб.");
     row (PyStr "B456") PyNone (PyStr "12 340.00 руб.")]
    ["A123"; "B456"; "C789"]
  = Ok [ {| Seller.auto_action_enabled := "UNKNOWN";
            Seller.currency_code := "RUB";
            Seller.price_offer_id := "A123";
            Seller.old_price := "0";
            Seller.price := "5990" |};
         {| Seller.auto_action_enabled := "UNKNOWN";
            Seller.currency_code := "RUB";
            Seller.price_offer_id := "B456";
            Seller.old_price := "0";
            Seller.price := "12340" |} ].
Proof. vm_compute. reflexivity. Qed.

Example market_create_prices_doc :
  Market.create_prices
    [row (PyStr "A123") PyNone (PyStr "5'990.00 руб.")] ["A123"]
  = Ok [ {| Market.price_id := "A123";
            Market.price := {| Market.value := 5990;
                               Market.currencyId := "RUR" |} |} ].
Proof. vm_compute. reflexivity. Qed.

Example divide_doc :
  Seller.divide [1; 2; 3; 4; 5] 2 = Ok [[1; 2]; [3; 4]; [5]].
Proof. vm_compute. reflexivity. Qed.

Example divide_zero : Seller.divide [1; 2; 3] 0 = Raise ValueError.
Proof. reflexivity. Qed.

Example divide_negative : Seller.divide [1; 2; 3] (-2) = Ok [].
Proof. vm_compute. reflexivity. Qed.

(** ** The quantity rule *)




(** ** The sign of a stock *)

Lemma digit_value_nonneg c : is_digit c = true -> 0 <= digit_value c.
Proof.
  unfold is_digit, digit_value. intros H.
  apply andb_true_iff in H as [H _]. apply N.leb_le in H. lia.
Qed.

Lemma parse_digits_nonneg l : forall acc b z,
  0 <= acc -> parse_digits acc b l = Some z -> 0 <= z.
Proof.
  induction l as [|c l IH]; intros acc b z Hacc H; simpl in H.
  - destruct b; [|done]. by injection H as <-.
  - destruct (is_digit c) eqn:Hd.
    + eapply IH; [|exact H]. pose proof (digit_value_nonneg c Hd). lia.
    + destruct (Ascii.eqb c "_"); [|done]. destruct b; [|done]. by eapply IH.
Qed.

Lemma parse_int_sign q z :
  parse_int q = Some z ->
  0 <= z \/ exists l, strip (list_ascii_of_string q) = "-"%char :: l.
Proof.
  unfold parse_int. destruct (strip _) as [|c l]; [done|].
  destruct (Ascii.eqb c "-") eqn:Hminus.
  - apply Ascii.eqb_eq in Hminus as ->. intros _. right. by exists l.
  - intros H. left. destruct (Ascii.eqb c "+");
      by eapply (parse_digits_nonneg _ 0 false).
Qed.

Lemma stock_of_quantity_sign v z :
  stock_of_quantity v = Ok z -> 0 <= z \/ negative_quantity v.
Proof.
  unfold stock_of_quantity. repeat case_decide.
  - intros [= <-]. left. lia.
  - intros [= <-]. left. lia.
  - destruct v as [|q|z0]; simpl; [done| |].
    + destruct (parse_int q) as [z'|] eqn:Hp; [|done].
      intros [= <-]. by apply parse_int_sign.
    + intros [= <-]. lia.
Qed.

(** The stocks of a run that returns: each is the stock of a row of the
    report with that code, or the zero of a zero-filled identifier. *)
Lemma reconcile_stocks {E : Type} (entry : string -> Z -> E)
    (stock_of : E -> Z) (id_of : E -> string) R ids out ids' :
  (forall c z, stock_of (entry c z) = z) ->
  (forall c z, id_of (entry c z) = c) ->
  reconcile entry R ids = (Ok out, ids') ->
  Forall (fun e =>
            stock_of e = 0
            \/ exists w, w ∈ R /\ code w = id_of e
                 /\ stock_of_quantity (quantity w) = Ok (stock_of e)) out.
Proof.
  intros Hstock Hid H.
  destruct (reconcile_Ok _ _ _ _ _ H) as (matched & -> & Hsub & Hall & _).
  apply Forall_app. split; apply Forall_forall; intros e He;
    apply list_elem_of_fmap in He as (m & -> & Hm).
  - right. exists m.1. rewrite Hstock, Hid. split_and!; [|done|].
    + eapply elem_of_sublist; [|exact Hsub]. apply list_elem_of_fmap. eauto.
    + by apply (proj1 (Forall_forall _ _) Hall).
  - left. apply Hstock.
Qed.

(** C8, as the code has it. Every run of [create_stocks] returns or raises;
    in a run that returns, every stock is an integer that is non-negative
    unless it comes from a row whose quantity reads as a negative number
    (a text with a leading minus sign, or a negative integer cell). *)
Theorem stock_defined_and_sign (R : list watch) (ids : list string)
    (wh now : string) :
  (forall out ids', Seller.create_stocks R ids = (Ok out, ids') ->
     Forall (fun e =>
               0 <= Seller.stock e
               \/ exists w, w ∈ R /\ code w = Seller.offer_id e
                    /\ stock_of_quantity (quantity w) = Ok (Seller.stock e)
                    /\ negative_quantity (quantity w)) out)
  /\ (forall out ids', Market.create_stocks now R ids wh = (Ok out, ids') ->
     Forall (fun e =>
               0 <= market_count e
               \/ exists w, w ∈ R /\ code w = Market.sku e
                    /\ stock_of_quantity (quantity w) = Ok (market_count e)
                    /\ negative_quantity (quantity w)) out)
  /\ ((exists out ids', Seller.create_stocks R ids = (Ok out, ids'))
      \/ (exists e ids', Seller.create_stocks R ids = (Raise e, ids')))
  /\ ((exists out ids', Market.create_stocks now R ids wh = (Ok out, ids'))
      \/ (exists e ids', Market.create_stocks now R ids wh = (Raise e, ids'))).
Proof.
  split_and!.
  - intros out ids' H. rewrite seller_create_stocks_reconcile in H.
    eapply Forall_impl;
      [exact (reconcile_stocks seller_entry Seller.stock Seller.offer_id _ _ _ _
                (fun _ _ => eq_refl) (fun _ _ => eq_refl) H)|].
    intros e [->|(w & Hw & Hc & Hz)]; [left; lia|].
    destruct (stock_of_quantity_sign _ _ Hz); [by left|right; by exists w].
  - intros out ids' H. rewrite market_create_stocks_reconcile in H.
    eapply Forall_impl;
      [exact (reconcile_stocks (market_entry wh now) market_count Market.sku _ _ _ _
                (fun _ _ => eq_refl) (fun _ _ => eq_refl) H)|].
    intros e [->|(w & Hw & Hc & Hz)]; [left; lia|].
    destruct (stock_of_quantity_sign _ _ Hz); [by left|right; by exists w].
  - destruct (Seller.create_stocks R ids) as [[out|e] ids'] eqn:H; eauto.
  - destruct (Market.create_stocks now R ids wh) as [[out|e] ids'] eqn:H; eauto.
Qed.

Lemma stock_defined_and_sign_witness :
  Forall (fun e => 0 <= Seller.stock e
            \/ exists w, w ∈ [row (PyStr "A") (PyStr "-5") PyNone;
                             row (PyStr "B") (PyStr "7") PyNone]
                 /\ code w = Seller.offer_id e
                 /\ stock_of_quantity (quantity w) = Ok (Seller.stock e)
                 /\ negative_quantity (quantity w))
    [seller_entry "A" (-5); seller_entry "B" 7; seller_entry "C" 0].
Proof.
  apply (proj1 (stock_defined_and_sign
                  [row (PyStr "A") (PyStr "-5") PyNone;
                   row (PyStr "B") (PyStr "7") PyNone]
                  ["A"; "B"; "C"] "1" "now") _ ["C"]).
  vm_compute. reflexivity.
Defined.

(** C8, as it is stated, fails: a quantity text with a minus sign parses,
    and the run returns with a negative stock. *)
Lemma negative_stock_returned :
  Seller.create_stocks [row (PyStr "A") (PyStr "-5") PyNone] ["A"]
  = (Ok [seller_entry "A" (-5)], [])
  /\ Market.create_stocks "now" [row (PyStr "A") (PyStr "-5") PyNone] ["A"] "1"
     = (Ok [market_entry "1" "now" "A" (-5)], [])
  /\ ~ Forall (fun e => 0 <= Seller.stock e) [seller_entry "A" (-5)].
Proof.
  split_and!; [vm_compute; reflexivity..|].
  intros H. apply Forall_cons in H as [H _]. simpl in H. lia.
Qed.

(** ** Order of the stock updates *)



(** ** Completeness of the reconciliation *)

Lemma seller_prices_from R : forall prices ids out,
  Seller.create_prices_from R prices ids = Ok out ->
  forall p, p ∈ out ->
    p ∈ prices
    \/ (Seller.price_offer_id p ∈ ids /\ Seller.price_offer_id p ∈ map code R).
Proof.
  induction R as [|w R IH]; intros prices ids out H p Hp; simpl in H.
  - injection H as <-. by left.
  - fold (code w) in H. destruct (decide (code w ∈ ids)) as [Hin|Hin].
    + destruct (Seller.price_conversion (dict_get "Цена" w)) as [d|e];
        [|done].
      simpl in H. destruct (IH _ _ _ H p Hp) as [Hacc|[? ?]].
      * apply elem_of_app in Hacc as [?|Hnew]; [by left|].
        apply list_elem_of_singleton in Hnew as ->. simpl.
        right. split; [done|]. apply elem_of_cons. by left.
      * right. split; [done|]. apply elem_of_cons. by right.
    + destruct (IH _ _ _ H p Hp) as [?|[? ?]]; [by left|].
      right. split; [done|]. apply elem_of_cons. by right.
Qed.

Lemma reconciled_ids {E : Type} (entry : string -> Z -> E)
    (id_of : E -> string) R ids out ids' :
  (forall c z, id_of (entry c z) = c) ->
  reconciled entry R ids out ids' -> map id_of out ≡ₚ ids.
Proof.
  intros Hid (matched & -> & _ & _ & _ & Hp & _).
  rewrite Hp, map_app, !map_map. f_equiv.
  - clear Hp. induction matched as [|m matched IH]; [done|].
    simpl. by rewrite Hid, IH.
  - clear Hp. induction ids' as [|c ids' IH]; [done|].
    simpl. by rewrite Hid, IH.
Qed.

(** C1, as the code has it. The identifiers of the stock updates that
    [create_stocks] returns are the identifier list up to order: each
    identifier occurs in the output as many times as in the list, hence
    exactly once when the list has no duplicates. The identifiers of the
    price updates of [create_prices] are in the list and among the codes of
    the report. *)
Theorem stock_ids_complete (R : list watch) (ids : list string) :
  (forall out ids', Seller.create_stocks R ids = (Ok out, ids') ->
     map Seller.offer_id out ≡ₚ ids
     /\ (forall x, x ∈ map Seller.offer_id out <-> x ∈ ids)
     /\ (NoDup ids -> NoDup (map Seller.offer_id out)))
  /\ (forall prices, Seller.create_prices R ids = Ok prices ->
     forall p, p ∈ prices ->
       Seller.price_offer_id p ∈ ids
       /\ Seller.price_offer_id p ∈ map code R).
Proof.
  split.
  - intros out ids' H. rewrite seller_create_stocks_reconcile in H.
    apply reconcile_Ok in H.
    pose proof (reconciled_ids seller_entry Seller.offer_id _ _ _ _
                  (fun _ _ => eq_refl) H) as Hp.
    split_and!; [done| |]; intros; by rewrite Hp.
  - intros prices H p Hp.
    destruct (seller_prices_from _ _ _ _ H p Hp) as [Hnil|?]; [|done].
    by apply elem_of_nil in Hnil.
Qed.

Lemma stock_ids_complete_witness :
  map Seller.offer_id
    [seller_entry "B456" 7; seller_entry "A123" 100; seller_entry "C789" 0]
  ≡ₚ ["A123"; "C789"; "B456"].
Proof.
  apply (proj1 (stock_ids_complete
                  [row (PyStr "B456") (PyStr "7") PyNone;
                   row (PyStr "A123") (PyStr ">10") PyNone]
                  ["A123"; "C789"; "B456"]) _ ["C789"]).
  vm_compute. reflexivity.
Defined.

(** C1, as it is stated, fails on an identifier list with a duplicate: the
    identifier is zero-filled twice. *)
Lemma duplicate_identifier_twice :
  Seller.create_stocks [] ["A"; "A"]
  = (Ok [seller_entry "A" 0; seller_entry "A" 0], ["A"; "A"])
  /\ ~ NoDup (map Seller.offer_id [seller_entry "A" 0; seller_entry "A" 0]).
Proof.
  split; [vm_compute; reflexivity|].
  simpl. intros H. apply NoDup_cons in H as [H _].
  apply H, list_elem_of_here.
Qed.

(** ** The identifier list after [create_stocks] *)

Lemma reconcile_NoDup {E : Type} (entry : string -> Z -> E) R ids out ids' :
  NoDup ids -> reconcile entry R ids = (Ok out, ids') ->
  forall w, w ∈ R -> code w ∉ ids'.
Proof.
  unfold reconcile. intros Hnd H.
  destruct (reconcile_matched entry R [] ids) as [[stocks|e] ids1] eqn:Hm;
    [|done].
  injection H as <- <-. by eapply reconcile_matched_NoDup.
Qed.

Lemma seller_prices_unmatched R : forall prices ids,
  (forall w, w ∈ R -> code w ∉ ids) ->
  Seller.create_prices_from R prices ids = Ok prices.
Proof.
  induction R as [|w R IH]; intros prices ids H; [done|].
  simpl. fold (code w). rewrite decide_False.
  - apply IH. intros w' Hw'. apply H, elem_of_cons. by right.
  - apply H, list_elem_of_here.
Qed.

Lemma divide_nonzero {A : Type} (lst : list A) (n : Z) :
  n <> 0 -> exists chunks, Seller.divide lst n = Ok chunks.
Proof.
  intros Hn. unfold Seller.divide, py_range.
  rewrite decide_False by done. by eexists.
Qed.

(** C3, as the code has it. [create_stocks] changes the list it is given:
    what it leaves is exactly the identifiers it zero-filled, one occurrence
    of a code being taken out for each matched row. A later [create_prices]
    on that list has price updates only for codes still in it. When the
    identifier list has no duplicates, no code of the report is left, so
    [create_prices] on the list returns nothing and [main] of seller.py
    sends stock batches and no price update. *)
Theorem create_stocks_consumes_ids (R : list watch) (ids : list string)
    (wh now : string) :
  (forall out ids', Seller.create_stocks R ids = (Ok out, ids') ->
     reconciled seller_entry R ids out ids'
     /\ (forall prices, Seller.create_prices R ids' = Ok prices ->
         forall p, p ∈ prices -> Seller.price_offer_id p ∈ ids')
     /\ (NoDup ids ->
         (forall w, w ∈ R -> code w ∉ ids')
         /\ Seller.create_prices R ids' = Ok []
         /\ exists batches,
              Seller.divide out 100 = Ok batches
              /\ Seller.main_sync ids R
                 = (map Seller.UpdateStocks batches, Ok ())))
  /\ (forall out ids', Market.create_stocks now R ids wh = (Ok out, ids') ->
     reconciled (market_entry wh now) R ids out ids'
     /\ (NoDup ids -> forall w, w ∈ R -> code w ∉ ids')).
Proof.
  split; intros out ids' H.
  - pose proof H as Hrec. rewrite seller_create_stocks_reconcile in Hrec.
    split_and!.
    + by apply reconcile_Ok.
    + intros prices Hp p Hin.
      destruct (seller_prices_from _ _ _ _ Hp p Hin) as [Hnil|[? _]]; [|done].
      by apply elem_of_nil in Hnil.
    + intros Hnd. pose proof (reconcile_NoDup _ _ _ _ _ Hnd Hrec) as Hgone.
      assert (Hprices : Seller.create_prices R ids' = Ok [])
        by by apply seller_prices_unmatched.
      split_and!; [done..|].
      destruct (divide_nonzero out 100) as [batches Hb]; [done|].
      exists batches. split; [done|].
      unfold Seller.main_sync. rewrite H.
      cbv beta iota zeta. unfold mbind, result_bind.
      rewrite Hb, Hprices. cbn.
      assert (Hd : Seller.divide (@nil Seller.price_entry) 900 = Ok [])
        by (vm_compute; reflexivity).
      rewrite Hd. simpl. by rewrite app_nil_r.
  - rewrite market_create_stocks_reconcile in H. split.
    + by apply reconcile_Ok.
    + intros Hnd. by eapply reconcile_NoDup.
Qed.

Lemma create_stocks_consumes_ids_witness :
  reconciled seller_entry
    [row (PyStr "A123") (PyStr ">10") (PyStr "5'990.00 руб.")]
    ["A123"; "B456"]
    [seller_entry "A123" 100; seller_entry "B456" 0] ["B456"]
  /\ Seller.create_prices
       [row (PyStr "A123") (PyStr ">10") (PyStr "5'990.00 руб.")] ["B456"]
     = Ok [].
Proof.
  destruct (proj1 (create_stocks_consumes_ids
                     [row (PyStr "A123") (PyStr ">10")
                          (PyStr "5'990.00 руб.")]
                     ["A123"; "B456"] "1" "now")
              [seller_entry "A123" 100; seller_entry "B456" 0] ["B456"])
    as (Hrec & _ & Hnodup).
  - vm_compute. reflexivity.
  - split; [exact Hrec|]. apply Hnodup.
    apply NoDup_cons. split.
    + intros Hin. apply list_elem_of_singleton in Hin. discriminate.
    + apply NoDup_singleton.
Defined.

(** C3, as it is stated, fails when the identifier list has a duplicate: the
    row is matched for stock, its code is still in the list afterwards, and
    [main] sends a price update for it. *)
Lemma matched_row_still_priced :
  let R := [row (PyStr "A") (PyStr "5") (PyStr "10.00 руб.")] in
  let price_A := {| Seller.auto_action_enabled := "UNKNOWN";
                    Seller.currency_code := "RUB";
                    Seller.price_offer_id := "A";
                    Seller.old_price := "0";
                    Seller.price := "10" |} in
  Seller.create_stocks R ["A"; "A"]
  = (Ok [seller_entry "A" 5; seller_entry "A" 0], ["A"])
  /\ Seller.create_prices R ["A"] = Ok [price_A]
  /\ Seller.main_sync ["A"; "A"] R
     = ([Seller.UpdateStocks [seller_entry "A" 5; seller_entry "A" 0];
         Seller.UpdatePrice [price_A]], Ok ()).
Proof. vm_compute. done. Qed.

(** The main flow on the example of the docstrings: the matched row gets no
    price update. *)
Example main_sync_doc :
  Seller.main_sync ["A123"; "B456"]
    [row (PyStr "A123") (PyStr ">10") (PyStr "5'990.00 руб.")]
  = ([Seller.UpdateStocks [seller_entry "A123" 100; seller_entry "B456" 0]],
     Ok ()).
Proof. vm_compute. reflexivity. Qed.

(** ** Two runs *)

Lemma reconcile_matched_natural {E F : Type} (f : E -> F)
    (entry : string -> Z -> E) R : forall stocks ids,
  map_run f (reconcile_matched entry R stocks ids)
  = reconcile_matched (fun c z => f (entry c z)) R (map f stocks) ids.
Proof.
  induction R as [|w R IH]; intros stocks ids; [done|].
  simpl. destruct (decide (code w ∈ ids)) as [Hin|Hin]; [|apply IH].
  destruct (stock_of_quantity (quantity w)) as [z|e]; [|done].
  destruct (list_remove (code w) ids) as [ids1|e]; [|done].
  by rewrite IH, map_app.
Qed.

Lemma reconcile_natural {E F : Type} (f : E -> F)
    (entry : string -> Z -> E) R ids :
  map_run f (reconcile entry R ids)
  = reconcile (fun c z => f (entry c z)) R ids.
Proof.
  unfold reconcile.
  change (@nil F) with (map f []).
  rewrite <- (reconcile_matched_natural f entry R [] ids).
  destruct (reconcile_matched entry R [] ids) as [[stocks|e] ids1]; [|done].
  unfold map_run. simpl. by rewrite map_app, map_map.
Qed.

Lemma reconcile_all_unmatched {E : Type} (entry : string -> Z -> E) R ids :
  (forall w, w ∈ R -> code w ∉ ids) ->
  reconcile entry R ids = (Ok (map (fun c => entry c 0) ids), ids).
Proof.
  induction R as [|w R IH]; intros Hgone; [done|].
  rewrite reconcile_cons_unmatched.
  - apply IH. intros w' Hw'. apply Hgone, elem_of_cons. by right.
  - apply Hgone, list_elem_of_here.
Qed.

(** The output of a run is the zero entries of the list it leaves exactly
    when no row of the report has its code in the identifier list. *)
Lemma reconciled_only_zeros {E : Type} (entry : string -> Z -> E)
    R ids out ids' :
  reconciled entry R ids out ids' ->
  map (fun c => entry c 0) ids' = out <-> forall w, w ∈ R -> code w ∉ ids.
Proof.
  intros (matched & -> & Hsub & _ & _ & Hp & Hcov). split.
  - intros Heq. apply (f_equal length) in Heq.
    rewrite length_app, !length_map in Heq.
    destruct matched as [|m matched]; [|simpl in Heq; lia].
    intros w Hw Hin.
    apply (proj1 (Forall_forall _ _) Hcov w Hw) in Hin.
    by apply elem_of_nil in Hin.
  - intros Hgone. destruct matched as [|m matched]; [done|].
    exfalso. apply (Hgone m.1).
    + eapply elem_of_sublist; [|exact Hsub]. apply list_elem_of_here.
    + rewrite Hp. apply list_elem_of_here.
Qed.

Lemma seller_prices_same_members R : forall prices ids ids2,
  (forall x, x ∈ ids <-> x ∈ ids2) ->
  Seller.create_prices_from R prices ids
  = Seller.create_prices_from R prices ids2.
Proof.
  induction R as [|w R IH]; intros prices ids ids2 Hsame; [done|].
  simpl. fold (code w).
  destruct (decide (code w ∈ ids)) as [Hin|Hin].
  - rewrite decide_True by (by apply Hsame).
    destruct (Seller.price_conversion (dict_get "Цена" w)); [|done].
    simpl. by apply IH.
  - rewrite decide_False by (by rewrite <- Hsame). by apply IH.
Qed.

Lemma market_prices_same_members R : forall prices ids ids2,
  (forall x, x ∈ ids <-> x ∈ ids2) ->
  Market.create_prices_from R prices ids
  = Market.create_prices_from R prices ids2.
Proof.
  induction R as [|w R IH]; intros prices ids ids2 Hsame; [done|].
  simpl. fold (code w).
  destruct (decide (code w ∈ ids)) as [Hin|Hin].
  - rewrite decide_True by (by apply Hsame).
    destruct (Seller.price_conversion (dict_get "Цена" w)) as [d|e]; [|done].
    simpl. destruct (parse_int d); [|done]. simpl. by apply IH.
  - rewrite decide_False by (by rewrite <- Hsame). by apply IH.
Qed.

(** C10, as the code has it. A run of [create_stocks] is settled by the
    report and by what the identifier list holds when the call is made: for
    Yandex two runs on the same report and list content differ in the time
    stamps only. [create_prices] leaves its list alone and is settled by
    the report and by which identifiers are in the list. But [create_stocks]
    takes the matched identifiers out of the list it is given: a second run
    on the same list object (here without duplicates) returns the zero
    entries of what the first run left, which is the output of the first
    run only when no row of the report has its code in the list. *)
Theorem reconciliation_rerun (R : list watch) (ids : list string)
    (wh t1 t2 : string) :
  map_run erase_timestamp (Market.create_stocks t1 R ids wh)
  = map_run erase_timestamp (Market.create_stocks t2 R ids wh)
  /\ (forall ids2, (forall x, x ∈ ids <-> x ∈ ids2) ->
       Seller.create_prices R ids = Seller.create_prices R ids2
       /\ Market.create_prices R ids = Market.create_prices R ids2)
  /\ (NoDup ids ->
      forall out ids', Seller.create_stocks R ids = (Ok out, ids') ->
      exists out2,
        Seller.create_stocks R ids' = (Ok out2, ids')
        /\ out2 = map (fun c => seller_entry c 0) ids'
        /\ (out2 = out <-> forall w, w ∈ R -> code w ∉ ids))
  /\ (NoDup ids ->
      forall out ids', Market.create_stocks t1 R ids wh = (Ok out, ids') ->
      exists out2,
        Market.create_stocks t2 R ids' wh = (Ok out2, ids')
        /\ out2 = map (fun c => market_entry wh t2 c 0) ids'
        /\ (map erase_timestamp out2 = map erase_timestamp out
            <-> forall w, w ∈ R -> code w ∉ ids)).
Proof.
  split_and!.
  - by rewrite !market_create_stocks_reconcile, !reconcile_natural.
  - intros ids2 Hsame. split.
    + by apply seller_prices_same_members.
    + by apply market_prices_same_members.
  - intros Hnd out ids' H. rewrite seller_create_stocks_reconcile in *.
    pose proof (reconcile_NoDup _ _ _ _ _ Hnd H) as Hgone.
    eexists. split; [by apply reconcile_all_unmatched|]. split; [done|].
    apply reconciled_only_zeros. by apply reconcile_Ok.
  - intros Hnd out ids' H. rewrite market_create_stocks_reconcile in *.
    pose proof (reconcile_NoDup _ _ _ _ _ Hnd H) as Hgone.
    eexists. split; [by apply reconcile_all_unmatched|]. split; [done|].
    rewrite map_map.
    apply (reconciled_only_zeros (fun c z => market_entry wh "" c z)).
    pose proof (reconcile_natural erase_timestamp (market_entry wh t1) R ids)
      as Hnat.
    rewrite H in Hnat. apply reconcile_Ok. symmetry. exact Hnat.
Qed.

Lemma reconciliation_rerun_witness :
  exists out2,
    Seller.create_stocks [row (PyStr "A123") (PyStr ">10") PyNone] ["B456"]
    = (Ok out2, ["B456"])
    /\ out2 = map (fun c => seller_entry c 0) ["B456"]
    /\ (out2 = [seller_entry "A123" 100; seller_entry "B456" 0]
        <-> forall w, w ∈ [row (PyStr "A123") (PyStr ">10") PyNone] ->
              code w ∉ ["A123"; "B456"]).
Proof.
  apply (proj1 (proj2 (proj2 (reconciliation_rerun
                                [row (PyStr "A123") (PyStr ">10") PyNone]
                                ["A123"; "B456"] "1" "t1" "t2")))).
  - apply NoDup_cons. split; [|apply NoDup_singleton].
    intros Hin. apply list_elem_of_singleton in Hin. discriminate.
  - vm_compute. reflexivity.
Defined.

(** C10, as it is stated, fails: the second of two runs of [create_stocks]
    on the same report and the same list object finds the matched
    identifier gone and returns another output. *)
Lemma second_run_differs :
  let R := [row (PyStr "A123") (PyStr ">10") PyNone] in
  Seller.create_stocks R ["A123"; "B456"]
  = (Ok [seller_entry "A123" 100; seller_entry "B456" 0], ["B456"])
  /\ Seller.create_stocks R ["B456"]
     = (Ok [seller_entry "B456" 0], ["B456"])
  /\ [seller_entry "A123" 100; seller_entry "B456" 0]
     <> [seller_entry "B456" 0].
Proof. vm_compute. split_and!; [reflexivity..|discriminate]. Qed.

(** X7. A second run that is given the list object of the first one sees what
    the first run left in it: with no duplicates, only zero-filled entries
    come out. *)
Lemma create_stocks_on_consumed_list R ids out ids' :
  NoDup ids ->
  Seller.create_stocks R ids = (Ok out, ids') ->
  Seller.create_stocks R ids'
  = (Ok (map (fun offer_id => seller_entry offer_id 0) ids'), ids').
Proof.
  intros Hnd H. rewrite seller_create_stocks_reconcile in *.
  pose proof (reconcile_NoDup _ _ _ _ _ Hnd H) as Hgone. clear H.
  induction R as [|w R IH]; [done|].
  rewrite reconcile_cons_unmatched.
  - apply IH. intros w' Hw'. apply Hgone, elem_of_cons. by right.
  - apply Hgone, list_elem_of_here.
Qed.

(** ** The price normalizer *)

Lemma split_on_nonempty sep l : split_on sep l <> [].
Proof.
  destruct l as [|c l]; simpl; [done|].
  destruct (Ascii.eqb c sep); [done|]. by destruct (split_on sep l).
Qed.

(** The first piece of a split is the text before the first separator. *)
Lemma split_on_head sep pre post :
  sep ∉ pre -> hd [] (split_on sep (pre ++ sep :: post)) = pre.
Proof.
  induction pre as [|c pre IH]; intros Hsep; simpl.
  - by rewrite Ascii.eqb_refl.
  - apply not_elem_of_cons in Hsep as [Hne Hsep].
    destruct (Ascii.eqb c sep) eqn:Heq.
    { apply Ascii.eqb_eq in Heq. congruence. }
    specialize (IH Hsep).
    destruct (split_on sep (pre ++ sep :: post)) as [|piece pieces] eqn:Hs.
    { by apply split_on_nonempty in Hs. }
    simpl in *. by rewrite IH.
Qed.

Lemma split_on_head_whole sep l :
  sep ∉ l -> hd [] (split_on sep l) = l.
Proof.
  induction l as [|c l IH]; intros Hsep; simpl; [done|].
  apply not_elem_of_cons in Hsep as [Hne Hsep].
  destruct (Ascii.eqb c sep) eqn:Heq.
  { apply Ascii.eqb_eq in Heq. congruence. }
  specialize (IH Hsep).
  destruct (split_on sep l) as [|piece pieces]; simpl in *; by subst.
Qed.

Lemma filter_all_digits l : all_digits l -> List.filter is_digit l = l.
Proof.
  induction 1 as [|c l Hc _ IH]; simpl; [done|]. by rewrite Hc, IH.
Qed.

Lemma filter_groups gs :
  Forall all_digits gs ->
  List.filter is_digit (concat (map (fun g => "'"%char :: g) gs)) = concat gs.
Proof.
  induction 1 as [|g gs Hg _ IH]; simpl; [done|].
  by rewrite List.filter_app, filter_all_digits, IH.
Qed.

Lemma all_digits_no_point l : all_digits l -> "."%char ∉ l.
Proof.
  intros H Hin. apply (proj1 (Forall_forall _ _) H) in Hin. done.
Qed.

Lemma groups_no_point gs :
  Forall all_digits gs ->
  "."%char ∉ concat (map (fun g => "'"%char :: g) gs).
Proof.
  induction 1 as [|g gs Hg _ IH]; simpl; [apply not_elem_of_nil|].
  rewrite not_elem_of_cons, not_elem_of_app.
  split_and!; [done|by apply all_digits_no_point|done].
Qed.

Lemma is_digit_not_space c : is_digit c = true -> is_space c = false.
Proof.
  unfold is_digit, is_space. intros H.
  apply andb_true_iff in H as [H1 H2].
  apply N.leb_le in H1. apply N.leb_le in H2.
  apply orb_false_iff. split.
  - apply andb_false_iff. right. apply N.leb_gt. lia.
  - apply N.eqb_neq. lia.
Qed.

Lemma drop_spaces_digit c l :
  is_digit c = true -> drop_spaces (c :: l) = c :: l.
Proof. intros H. simpl. by rewrite is_digit_not_space. Qed.

Lemma strip_all_digits l : all_digits l -> strip l = l.
Proof.
  intros H. unfold strip. destruct l as [|c l]; [done|].
  rewrite drop_spaces_digit by (by inversion H).
  pose proof (List.Forall_rev H) as Hrev.
  destruct (rev (c :: l)) as [|c' l'] eqn:Hr.
  - apply (f_equal (@rev ascii)) in Hr. by rewrite rev_involutive in Hr.
  - rewrite drop_spaces_digit by (by inversion Hrev).
    by rewrite <- Hr, rev_involutive.
Qed.

Lemma parse_digits_all_digits l : all_digits l -> forall acc b,
  l <> [] \/ b = true ->
  parse_digits acc b l
  = Some (fold_left (fun acc c => 10 * acc + digit_value c) l acc).
Proof.
  induction 1 as [|c l Hc _ IH]; intros acc b Hb; simpl.
  - destruct Hb as [Hb|Hb]; [done|by subst].
  - rewrite Hc. apply IH. by right.
Qed.

Lemma parse_int_digits l :
  all_digits l -> l <> [] ->
  parse_int (string_of_list_ascii l) = Some (digits_value l).
Proof.
  intros Hl Hne. unfold parse_int.
  rewrite list_ascii_of_string_of_list_ascii, strip_all_digits by done.
  destruct l as [|c l]; [done|].
  assert (Hc : is_digit c = true) by (by inversion Hl).
  destruct (Ascii.eqb c "-") eqn:Hminus.
  { apply Ascii.eqb_eq in Hminus. by subst. }
  destruct (Ascii.eqb c "+") eqn:Hplus.
  { apply Ascii.eqb_eq in Hplus. by subst. }
  apply parse_digits_all_digits; [done|by left].
Qed.

Lemma digits_value_nonneg l : all_digits l -> 0 <= digits_value l.
Proof.
  intros Hl. destruct l as [|c l]; [done|].
  eapply (parse_digits_nonneg (c :: l) 0 false); [done|].
  apply parse_digits_all_digits; [done|by left].
Qed.

Lemma price_conversion_before_point pre post :
  "."%char ∉ pre ->
  Seller.price_conversion (PyStr (string_of_list_ascii (pre ++ "."%char :: post)))
  = Ok (string_of_list_ascii (List.filter is_digit pre)).
Proof.
  intros Hpre. unfold Seller.price_conversion.
  by rewrite list_ascii_of_string_of_list_ascii, split_on_head.
Qed.

(** C4. [price_conversion] returns the digits of the text before the first
    point. On a text of the form ["<digits>[' digits]*.<digits> <suffix>"]
    that is the digit groups of the integer part written one after the
    other, a digit string that [int] reads as a non-negative integer; so
    "5'990.00 руб." gives 5990 and "12 340.00 руб." gives 12340. *)
Theorem price_conversion_digit_groups :
  (forall pre post, "."%char ∉ pre ->
     Seller.price_conversion
       (PyStr (string_of_list_ascii (pre ++ "."%char :: post)))
     = Ok (string_of_list_ascii (List.filter is_digit pre)))
  /\ (forall g0 gs frac suffix,
       all_digits g0 -> g0 <> [] -> Forall all_digits gs ->
       Seller.price_conversion (PyStr (price_text g0 gs frac suffix))
       = Ok (string_of_list_ascii (g0 ++ concat gs))
       /\ py_int (PyStr (string_of_list_ascii (g0 ++ concat gs)))
          = Ok (digits_value (g0 ++ concat gs))
       /\ 0 <= digits_value (g0 ++ concat gs))
  /\ (Seller.price_conversion (PyStr "5'990.00 руб.") = Ok "5990"
      /\ py_int (PyStr "5990") = Ok 5990)
  /\ (Seller.price_conversion (PyStr "12 340.00 руб.") = Ok "12340"
      /\ py_int (PyStr "12340") = Ok 12340).
Proof.
  split_and!; try (vm_compute; reflexivity).
  - apply price_conversion_before_point.
  - intros g0 gs frac suffix H0 Hne Hgs.
    assert (Hall : all_digits (g0 ++ concat gs)).
    { apply Forall_app. split; [done|]. by apply Forall_concat. }
    split_and!.
    + unfold price_text. rewrite app_assoc, price_conversion_before_point.
      * by rewrite List.filter_app, filter_all_digits, filter_groups.
      * rewrite not_elem_of_app. split;
          [by apply all_digits_no_point|by apply groups_no_point].
    + simpl. rewrite parse_int_digits; [done..|].
      destruct g0; [done|]. done.
    + by apply digits_value_nonneg.
Qed.

Lemma price_conversion_digit_groups_witness :
  Seller.price_conversion
    (PyStr (price_text ["5"%char] [["9"; "9"; "0"]%char] ["0"; "0"]%char
              ["r"; "."]%char))
  = Ok "5990".
Proof.
  refine (proj1 (proj1 (proj2 price_conversion_digit_groups)
                   ["5"%char] [["9"; "9"; "0"]%char] ["0"; "0"]%char
                   ["r"; "."]%char _ _ _)).
  - repeat constructor.
  - discriminate.
  - repeat constructor.
Defined.

(** ** The batcher *)

(** A slice between natural bounds is a [take] of a [drop]. *)
Lemma py_slice_nat {A : Type} (l : list A) (a b : nat) :
  py_slice l (Z.of_nat a) (Z.of_nat a + Z.of_nat b) = take b (drop a l).
Proof.
  unfold py_slice, clamp_index.
  destruct (Z.ltb_spec (Z.of_nat a) 0) as [?|_]; [lia|].
  destruct (Z.ltb_spec (Z.of_nat a + Z.of_nat b) 0) as [?|_]; [lia|].
  destruct (decide (a <= length l)%nat) as [Hle|Hgt].
  - replace (Z.to_nat (Z.of_nat a `min` Z.of_nat (length l))) with a by lia.
    destruct (decide (b <= length l - a)%nat).
    + f_equal. lia.
    + rewrite !take_ge; [done|rewrite length_drop; lia..].
  - rewrite !drop_ge by lia. by rewrite !take_nil.
Qed.

Lemma concat_chunks {A : Type} (l : list A) (n c : nat) :
  concat (map (fun k => take n (drop (k * n) l)) (seq 0 c)) = take (c * n) l.
Proof.
  induction c as [|c IH]; [done|].
  rewrite seq_S, map_app, concat_app, IH. simpl.
  rewrite app_nil_r, take_take_drop. f_equal. lia.
Qed.

Lemma divide_chunks {A : Type} (lst : list A) (n : Z) :
  0 < n ->
  Seller.divide lst n
  = Ok (map (fun k => take (Z.to_nat n) (drop (k * Z.to_nat n) lst))
          (seq 0 (range_length 0 (Z.of_nat (length lst)) n))).
Proof.
  intros Hn. unfold Seller.divide, py_range.
  rewrite decide_False by lia. simpl. f_equal.
  rewrite map_map. apply map_ext. intros k.
  rewrite <- (py_slice_nat lst (k * Z.to_nat n) (Z.to_nat n)).
  f_equal; lia.
Qed.

Lemma range_length_bounds (len : nat) (n : Z) :
  0 < n ->
  let c := range_length 0 (Z.of_nat len) n in
  (len <= c * Z.to_nat n)%nat
  /\ (forall k, (k < c)%nat -> (k * Z.to_nat n < len)%nat).
Proof.
  intros Hn c. unfold range_length in c.
  destruct (Z.ltb_spec 0 n) as [_|?]; [|lia].
  set (q := (Z.of_nat len - 0 + n - 1) / n) in c.
  assert (Hq : n * q <= Z.of_nat len + n - 1 < n * q + n).
  { pose proof (Z.div_mod (Z.of_nat len - 0 + n - 1) n ltac:(lia)) as Hdm.
    pose proof (Z.mod_pos_bound (Z.of_nat len - 0 + n - 1) n Hn).
    fold q in Hdm. lia. }
  assert (0 <= q) by (apply Z.div_pos; lia).
  subst c. split; [nia|]. intros k Hk. nia.
Qed.

(** C5. For a positive [n], [divide] yields chunks whose concatenation is
    the list; each chunk but the last has [n] elements, each chunk has from
    1 to [n] elements, and a non-empty list gives at least one chunk. *)
Theorem divide_batches {A : Type} (lst : list A) (n : Z) :
  0 < n ->
  exists chunks,
    Seller.divide lst n = Ok chunks
    /\ concat chunks = lst
    /\ (forall (i : nat) chunk,
          chunks !! i = Some chunk -> (S i < length chunks)%nat ->
          Z.of_nat (length chunk) = n)
    /\ (forall chunk, last chunks = Some chunk ->
          1 <= Z.of_nat (length chunk) <= n)
    /\ Forall (fun chunk => 1 <= Z.of_nat (length chunk) <= n) chunks
    /\ (lst <> [] -> chunks <> []).
Proof.
  intros Hn. eexists. split; [by apply divide_chunks|].
  destruct (range_length_bounds (length lst) n Hn) as [Hcover Hstart].
  set (c := range_length 0 (Z.of_nat (length lst)) n) in *.
  set (m := Z.to_nat n) in *.
  assert (Hlen : forall i chunk,
            map (fun k => take m (drop (k * m) lst)) (seq 0 c) !! i
            = Some chunk ->
            (i < c)%nat
            /\ length chunk = Nat.min m (length lst - i * m)).
  { intros i chunk Hi. change map with (@fmap list _) in Hi.
    apply list_lookup_fmap_Some in Hi as (k & -> & Hk).
    apply lookup_seq in Hk as [-> Hk].
    split; [done|]. by rewrite length_take, length_drop. }
  assert (Hall : Forall (fun chunk => 1 <= Z.of_nat (length chunk) <= n)
                   (map (fun k => take m (drop (k * m) lst)) (seq 0 c))).
  { apply Forall_lookup. intros i chunk Hi.
    destruct (Hlen _ _ Hi) as [Hic ->]. specialize (Hstart _ Hic). lia. }
  split_and!.
  - rewrite concat_chunks. apply take_ge. lia.
  - intros i chunk Hi Hlast. rewrite length_map, length_seq in Hlast.
    destruct (Hlen _ _ Hi) as [_ ->]. specialize (Hstart _ Hlast). lia.
  - intros chunk Hlast. rewrite last_lookup in Hlast.
    by apply (Forall_lookup_1 _ _ _ _ Hall Hlast).
  - done.
  - intros Hne Hnil. apply (f_equal length) in Hnil.
    rewrite length_map, length_seq in Hnil. simpl in Hnil.
    destruct lst; [done|]. simpl in Hcover. lia.
Qed.

Lemma divide_batches_witness :
  exists chunks,
    Seller.divide [1; 2; 3; 4; 5] 2 = Ok chunks
    /\ concat chunks = [1; 2; 3; 4; 5].
Proof.
  destruct (divide_batches [1; 2; 3; 4; 5] 2) as (chunks & Hd & Hc & _).
  - lia.
  - exists chunks. by split.
Defined.

(** ** Pagination *)

Section OzonPagination.

Variable responses : nat -> string -> result Seller.product_page.

Lemma ozon_loop_continue fuel k :
  ozon_stops responses k = false ->
  Seller.get_offer_ids_loop responses (S fuel) k
    (ozon_cursor responses k) (ozon_fetched responses k)
  = Seller.get_offer_ids_loop responses fuel (S k)
      (ozon_cursor responses (S k)) (ozon_fetched responses (S k)).
Proof.
  unfold ozon_stops. simpl. unfold ozon_reply, Seller.get_product_list.
  destruct (responses k (ozon_cursor responses k)) as [p|e]; [|done].
  intros Hstop. apply bool_decide_eq_false in Hstop.
  by rewrite decide_False.
Qed.

Lemma ozon_loop_stop fuel k :
  ozon_stops responses k = true ->
  Seller.get_offer_ids_loop responses (S fuel) k
    (ozon_cursor responses k) (ozon_fetched responses k)
  = Some match ozon_reply responses k with
         | Ok _ => Ok (ozon_fetched responses (S k))
         | Raise e => Raise e
         end.
Proof.
  unfold ozon_stops. simpl. unfold ozon_reply, Seller.get_product_list.
  destruct (responses k (ozon_cursor responses k)) as [p|e]; [|done].
  intros Hstop. apply bool_decide_eq_true in Hstop.
  by rewrite decide_True.
Qed.

Lemma ozon_loop_skip d : forall fuel k,
  (forall j, (j < d)%nat -> ozon_stops responses (k + j) = false) ->
  Seller.get_offer_ids_loop responses (d + fuel) k
    (ozon_cursor responses k) (ozon_fetched responses k)
  = Seller.get_offer_ids_loop responses fuel (k + d)
      (ozon_cursor responses (k + d)) (ozon_fetched responses (k + d)).
Proof.
  induction d as [|d IH]; intros fuel k Hrun.
  - by rewrite Nat.add_0_r.
  - change (S d + fuel)%nat with (S (d + fuel)).
    rewrite ozon_loop_continue.
    + rewrite IH; [by rewrite Nat.add_succ_r|].
      intros j Hj. rewrite Nat.add_succ_l, <- Nat.add_succ_r.
      apply Hrun. lia.
    + rewrite <- (Nat.add_0_r k). apply Hrun. lia.
Qed.

Lemma ozon_returns_at k fuel :
  (forall j, (j < k)%nat -> ozon_stops responses j = false) ->
  ozon_stops responses k = true ->
  (k < fuel)%nat ->
  Seller.get_offer_ids responses fuel = Some (ozon_outcome responses k).
Proof.
  intros Hrun Hstop Hfuel. unfold Seller.get_offer_ids, ozon_outcome.
  replace fuel with (k + S (fuel - S k))%nat by lia.
  rewrite (ozon_loop_skip k _ 0 Hrun). simpl (0 + k)%nat.
  rewrite ozon_loop_stop by done.
  by destruct (ozon_reply responses k).
Qed.

Lemma ozon_runs_on fuel :
  (forall j, (j < fuel)%nat -> ozon_stops responses j = false) ->
  Seller.get_offer_ids responses fuel = None.
Proof.
  intros Hrun. unfold Seller.get_offer_ids.
  pose proof (ozon_loop_skip fuel 0 0 Hrun) as Hskip.
  rewrite Nat.add_0_r in Hskip. simpl in Hskip. by rewrite Hskip.
Qed.

End OzonPagination.

Section YandexPagination.

Variable responses : nat -> option string -> result Market.offer_page.

Lemma yandex_loop_continue fuel k :
  yandex_stops responses k = false ->
  Market.get_offer_ids_loop responses (S fuel) k
    (yandex_cursor responses k) (yandex_fetched responses k)
  = Market.get_offer_ids_loop responses fuel (S k)
      (yandex_cursor responses (S k)) (yandex_fetched responses (S k)).
Proof.
  unfold yandex_stops. simpl. unfold yandex_reply, Market.get_product_list.
  destruct (responses k (yandex_cursor responses k)) as [p|e]; [|done].
  by intros ->.
Qed.

Lemma yandex_loop_stop fuel k :
  yandex_stops responses k = true ->
  Market.get_offer_ids_loop responses (S fuel) k
    (yandex_cursor responses k) (yandex_fetched responses k)
  = Some match yandex_reply responses k with
         | Ok _ => Ok (yandex_fetched responses (S k))
         | Raise e => Raise e
         end.
Proof.
  unfold yandex_stops. simpl. unfold yandex_reply, Market.get_product_list.
  destruct (responses k (yandex_cursor responses k)) as [p|e]; [|done].
  by intros ->.
Qed.

Lemma yandex_loop_skip d : forall fuel k,
  (forall j, (j < d)%nat -> yandex_stops responses (k + j) = false) ->
  Market.get_offer_ids_loop responses (d + fuel) k
    (yandex_cursor responses k) (yandex_fetched responses k)
  = Market.get_offer_ids_loop responses fuel (k + d)
      (yandex_cursor responses (k + d)) (yandex_fetched responses (k + d)).
Proof.
  induction d as [|d IH]; intros fuel k Hrun.
  - by rewrite Nat.add_0_r.
  - change (S d + fuel)%nat with (S (d + fuel)).
    rewrite yandex_loop_continue.
    + rewrite IH; [by rewrite Nat.add_succ_r|].
      intros j Hj. rewrite Nat.add_succ_l, <- Nat.add_succ_r.
      apply Hrun. lia.
    + rewrite <- (Nat.add_0_r k). apply Hrun. lia.
Qed.

Lemma yandex_returns_at k fuel :
  (forall j, (j < k)%nat -> yandex_stops responses j = false) ->
  yandex_stops responses k = true ->
  (k < fuel)%nat ->
  Market.get_offer_ids responses fuel = Some (yandex_outcome responses k).
Proof.
  intros Hrun Hstop Hfuel. unfold Market.get_offer_ids, yandex_outcome.
  replace fuel with (k + S (fuel - S k))%nat by lia.
  rewrite (yandex_loop_skip k _ 0 Hrun). simpl (0 + k)%nat.
  rewrite yandex_loop_stop by done.
  by destruct (yandex_reply responses k).
Qed.

Lemma yandex_runs_on fuel :
  (forall j, (j < fuel)%nat -> yandex_stops responses j = false) ->
  Market.get_offer_ids responses fuel = None.
Proof.
  intros Hrun. unfold Market.get_offer_ids.
  pose proof (yandex_loop_skip fuel 0 0 Hrun) as Hskip.
  rewrite Nat.add_0_r in Hskip. simpl in Hskip. by rewrite Hskip.
Qed.

End YandexPagination.

Lemma first_true (f : nat -> bool) (n : nat) :
  (forall j, (j < n)%nat -> f j = false)
  \/ (exists k, (k < n)%nat /\ f k = true
        /\ forall j, (j < k)%nat -> f j = false).
Proof.
  induction n as [|n [Hnone|(k & Hk & Hf & Hmin)]].
  - left. intros j Hj. lia.
  - destruct (f n) eqn:Hn.
    + right. exists n. split_and!; [lia|done|done].
    + left. intros j Hj. destruct (decide (j = n)) as [->|?]; [done|].
      apply Hnone. lia.
  - right. exists k. split_and!; [lia|done|done].
Qed.

(** C7, as the code has it. Neither [get_offer_ids] has a cap on its
    iterations or a test of progress. The loop returns exactly when some
    reply raises or meets the stop condition of its marketplace (Ozon: the
    reported total is the number of products gathered; Yandex: the
    next-page token is empty), and then at the first such reply, with the
    identifiers gathered up to it; when no reply does, every bound on the
    iterations is reached with the loop still running. *)
Theorem pagination_returns_iff_stop
    (ozon : nat -> string -> result Seller.product_page)
    (yandex : nat -> option string -> result Market.offer_page) :
  ((exists fuel r, Seller.get_offer_ids ozon fuel = Some r)
   <-> exists k, ozon_stops ozon k = true)
  /\ (forall k fuel,
        (forall j, (j < k)%nat -> ozon_stops ozon j = false) ->
        ozon_stops ozon k = true -> (k < fuel)%nat ->
        Seller.get_offer_ids ozon fuel = Some (ozon_outcome ozon k))
  /\ ((forall k, ozon_stops ozon k = false) ->
      forall fuel, Seller.get_offer_ids ozon fuel = None)
  /\ ((exists fuel r, Market.get_offer_ids yandex fuel = Some r)
      <-> exists k, yandex_stops yandex k = true)
  /\ (forall k fuel,
        (forall j, (j < k)%nat -> yandex_stops yandex j = false) ->
        yandex_stops yandex k = true -> (k < fuel)%nat ->
        Market.get_offer_ids yandex fuel = Some (yandex_outcome yandex k))
  /\ ((forall k, yandex_stops yandex k = false) ->
      forall fuel, Market.get_offer_ids yandex fuel = None).
Proof.
  split_and!.
  - split.
    + intros (fuel & r & Hr).
      destruct (first_true (ozon_stops ozon) fuel)
        as [Hnone|(k & _ & Hk & _)]; [|by exists k].
      by rewrite (ozon_runs_on ozon fuel Hnone) in Hr.
    + intros (k & Hk).
      destruct (first_true (ozon_stops ozon) (S k))
        as [Hnone|(k' & _ & Hk' & Hmin)].
      { rewrite Hnone in Hk by lia. done. }
      exists (S k'), (ozon_outcome ozon k').
      apply ozon_returns_at; [done|done|lia].
  - intros k fuel. apply ozon_returns_at.
  - intros Hnone fuel. apply ozon_runs_on. auto.
  - split.
    + intros (fuel & r & Hr).
      destruct (first_true (yandex_stops yandex) fuel)
        as [Hnone|(k & _ & Hk & _)]; [|by exists k].
      by rewrite (yandex_runs_on yandex fuel Hnone) in Hr.
    + intros (k & Hk).
      destruct (first_true (yandex_stops yandex) (S k))
        as [Hnone|(k' & _ & Hk' & Hmin)].
      { rewrite Hnone in Hk by lia. done. }
      exists (S k'), (yandex_outcome yandex k').
      apply yandex_returns_at; [done|done|lia].
  - intros k fuel. apply yandex_returns_at.
  - intros Hnone fuel. apply yandex_runs_on. auto.
Qed.

Lemma pagination_returns_iff_stop_witness :
  let two_pages (call : nat) (last_id : string) :=
    match call with
    | O => Ok {| Seller.resp_items := [{| Seller.product_offer_id := "A123" |}];
                 Seller.resp_total := 2;
                 Seller.resp_last_id := "A123" |}
    | _ => Ok {| Seller.resp_items := [{| Seller.product_offer_id := "B456" |}];
                 Seller.resp_total := 2;
                 Seller.resp_last_id := "B456" |}
    end in
  Seller.get_offer_ids two_pages 5 = Some (Ok ["A123"; "B456"]).
Proof.
  intros two_pages.
  refine (proj1 (proj2 (pagination_returns_iff_stop two_pages yandex_stuck))
            1%nat 5%nat _ _ _).
  - intros j Hj. assert (j = 0%nat) as -> by lia. reflexivity.
  - reflexivity.
  - lia.
Defined.

(** C7, as it is stated, fails: against a marketplace that keeps reporting
    a total it never delivers, or keeps naming a next page, the loop does
    not return within any number of iterations. *)
Lemma pagination_never_returns :
  ~ (exists fuel r, Seller.get_offer_ids ozon_stuck fuel = Some r)
  /\ ~ (exists fuel r, Market.get_offer_ids yandex_stuck fuel = Some r).
Proof.
  split; intros (fuel & r & Hr).
  - assert (Hloop : forall fuel call last_id,
              Seller.get_offer_ids_loop ozon_stuck fuel call last_id [] = None).
    { clear. induction fuel as [|fuel IH]; intros call last_id; [done|].
      simpl. apply IH. }
    unfold Seller.get_offer_ids in Hr. by rewrite Hloop in Hr.
  - assert (Hloop : forall fuel call page,
              Market.get_offer_ids_loop yandex_stuck fuel call page [] = None).
    { clear. induction fuel as [|fuel IH]; intros call page; [done|].
      simpl. apply IH. }
    unfold Market.get_offer_ids in Hr. by rewrite Hloop in Hr.
Qed.

(** ** The extracted spreadsheet *)

Section DownloadStockFacts.

Context {content : Type}.
Variable unzip : content -> result (list (string * content)).
Variable read_excel : content -> result (list watch).

(** When the function returns, the spreadsheet is gone. *)
Lemma download_stock_returns response fs watch_remnants fs' :
  Seller.download_stock content unzip read_excel response fs
  = (Ok watch_remnants, fs') ->
  fs' !! "ostatki.xls" = None.
Proof.
  unfold Seller.download_stock.
  destruct (response ≫= unzip) as [archive|e]; [|done].
  destruct (Seller.extractall content archive fs !! "ostatki.xls")
    as [excel_file|]; [|done].
  destruct (read_excel excel_file) as [ws|e]; [|done].
  intros [= _ <-]. apply lookup_delete_eq.
Qed.

(** When the spreadsheet does not parse, the function raises and the
    extracted file stays where it was put. *)
Lemma download_stock_parse_failure response fs archive excel_file e :
  response ≫= unzip = Ok archive ->
  Seller.extractall content archive fs !! "ostatki.xls" = Some excel_file ->
  read_excel excel_file = Raise e ->
  exists fs',
    Seller.download_stock content unzip read_excel response fs = (Raise e, fs')
    /\ fs' !! "ostatki.xls" = Some excel_file.
Proof.
  intros Hzip Hfile Hparse. exists (Seller.extractall content archive fs).
  unfold Seller.download_stock. by rewrite Hzip, Hfile, Hparse.
Qed.

End DownloadStockFacts.

(** C6 fails on the code. The archive holds ostatki.xls with a content that
    [read_excel] rejects: [download_stock] raises, and the file it extracted
    is still in the directory. With a second member in the archive, that
    member stays even when the function returns. *)
Theorem download_stock_leaves_file :
  let unzip (body : string) :=
    if decide (body = "zip:bad-sheet") then Ok [("ostatki.xls", "garbage")]
    else if decide (body = "zip:two-members")
    then Ok [("ostatki.xls", "sheet"); ("readme.txt", "text")]
    else Raise BadZipFile in
  let read_excel (sheet : string) :=
    if decide (sheet = "sheet") then Ok [] else Raise ValueError in
  Seller.download_stock string unzip read_excel (Ok "zip:bad-sheet") ∅
  = (Raise ValueError, {["ostatki.xls" := "garbage"]})
  /\ Seller.download_stock string unzip read_excel (Ok "zip:two-members") ∅
     = (Ok [], {["readme.txt" := "text"]}).
Proof. split; vm_compute; reflexivity. Qed.

(** * Further properties of the code *)

(** ** Rows that the marketplace does not know *)

Lemma reconcile_matched_filter {E : Type} (entry : string -> Z -> E)
    (ids0 : list string) R : forall stocks ids,
  ids ⊆ ids0 ->
  reconcile_matched entry (filter (fun w => code w ∈ ids0) R) stocks ids
  = reconcile_matched entry R stocks ids.
Proof.
  induction R as [|w R IH]; intros stocks ids Hsub; [done|].
  destruct (decide (code w ∈ ids0)) as [Hin0|Hin0].
  - rewrite filter_cons_True by done. simpl.
    destruct (decide (code w ∈ ids)) as [Hin|Hin]; [|by apply IH].
    destruct (stock_of_quantity (quantity w)) as [z|e]; [|done].
    destruct (list_remove (code w) ids) as [ids1|e] eqn:Hrm; [|done].
    apply IH. apply list_remove_Ok in Hrm as [_ Hs].
    intros x Hx. apply Hsub. by eapply elem_of_sublist.
  - rewrite filter_cons_False by done. simpl.
    rewrite decide_False; [by apply IH|].
    intros Hin. by apply Hin0, Hsub.
Qed.

(** X1. Rows whose code is not in the identifier list play no part in
    [create_stocks]: dropping them from the report changes neither the
    outcome (also when a dropped row has a quantity that does not parse) nor
    the list that is left. *)
Theorem create_stocks_ignores_unknown_rows (R : list watch)
    (ids : list string) (wh now : string) :
  Seller.create_stocks (filter (fun w => code w ∈ ids) R) ids
  = Seller.create_stocks R ids
  /\ Market.create_stocks now (filter (fun w => code w ∈ ids) R) ids wh
     = Market.create_stocks now R ids wh.
Proof.
  rewrite !seller_create_stocks_reconcile, !market_create_stocks_reconcile.
  unfold reconcile. by rewrite !reconcile_matched_filter.
Qed.

(** ** When [create_stocks] raises *)

Lemma stock_of_quantity_raises v e :
  stock_of_quantity v = Raise e -> e = ValueError \/ e = TypeError.
Proof.
  unfold stock_of_quantity. repeat case_decide; try done.
  destruct v as [|q|z]; simpl; [intros [= <-]; by right| |done].
  destruct (parse_int q); [done|]. intros [= <-]. by left.
Qed.

Lemma reconcile_matched_Raise {E : Type} (entry : string -> Z -> E) R :
  forall stocks ids e ids',
  reconcile_matched entry R stocks ids = (Raise e, ids') ->
  ids' `sublist_of` ids
  /\ exists w, w ∈ R /\ code w ∈ ids'
       /\ stock_of_quantity (quantity w) = Raise e.
Proof.
  induction R as [|w R IH]; intros stocks ids e ids' H; simpl in H; [done|].
  destruct (decide (code w ∈ ids)) as [Hin|Hin].
  - destruct (stock_of_quantity (quantity w)) as [z|e0] eqn:Hz.
    + destruct (list_remove_elem_of _ _ Hin) as [ids1 Hrm].
      rewrite Hrm in H. apply list_remove_Ok in Hrm as [_ Hs].
      destruct (IH _ _ _ _ H) as (Hs' & w' & Hw' & Hc & Hq).
      split; [by etrans|]. exists w'. split_and!; [|done..].
      apply elem_of_cons. by right.
    + injection H as <- <-. split; [done|].
      exists w. split_and!; [apply list_elem_of_here|done..].
  - destruct (IH _ _ _ _ H) as (Hs' & w' & Hw' & Hc & Hq).
    split; [done|]. exists w'. split_and!; [|done..].
    apply elem_of_cons. by right.
Qed.

Lemma reconcile_Raise {E : Type} (entry : string -> Z -> E) R ids e ids' :
  reconcile entry R ids = (Raise e, ids') ->
  ids' `sublist_of` ids
  /\ exists w, w ∈ R /\ code w ∈ ids'
       /\ stock_of_quantity (quantity w) = Raise e.
Proof.
  unfold reconcile. intros H.
  destruct (reconcile_matched entry R [] ids) as [[stocks|e0] ids1] eqn:Hm;
    [done|].
  injection H as <- <-. by eapply reconcile_matched_Raise.
Qed.

(** X2. [create_stocks] raises only [ValueError] or [TypeError], and only on a
    row whose code is in the identifier list at that moment and whose
    quantity is neither ">10", "1" nor an integer. The caller's list is then
    left without the codes matched before that row: a sublist of what it
    was, still holding the code of the row. *)
Theorem create_stocks_raise_cause (R : list watch) (ids : list string)
    (wh now : string) (e : exn) (ids' : list string) :
  Seller.create_stocks R ids = (Raise e, ids')
  \/ Market.create_stocks now R ids wh = (Raise e, ids') ->
  (e = ValueError \/ e = TypeError)
  /\ ids' `sublist_of` ids
  /\ exists w, w ∈ R /\ code w ∈ ids'
       /\ stock_of_quantity (quantity w) = Raise e.
Proof.
  rewrite seller_create_stocks_reconcile, market_create_stocks_reconcile.
  intros [H|H]; apply reconcile_Raise in H as (Hs & w & Hw & Hc & Hq);
    (split_and!; [by eapply stock_of_quantity_raises|done|by exists w]).
Qed.

Lemma create_stocks_raise_cause_witness :
  (ValueError = ValueError \/ ValueError = TypeError)
  /\ ["B"; "C"] `sublist_of` ["A"; "B"; "C"]
  /\ exists w, w ∈ [row (PyStr "A") (PyStr "3") PyNone;
                    row (PyStr "B") (PyStr "few") PyNone]
       /\ code w ∈ ["B"; "C"]
       /\ stock_of_quantity (quantity w) = Raise ValueError.
Proof.
  apply (create_stocks_raise_cause _ ["A"; "B"; "C"] "1" "now").
  left. vm_compute. reflexivity.
Defined.

Lemma reconcile_matched_returns {E : Type} (entry : string -> Z -> E) R :
  forall stocks ids,
  (forall w, w ∈ R -> code w ∈ ids ->
     exists z, stock_of_quantity (quantity w) = Ok z) ->
  exists out ids', reconcile_matched entry R stocks ids = (Ok out, ids').
Proof.
  intros stocks ids Hparse.
  destruct (reconcile_matched entry R stocks ids) as [[out|e] ids'] eqn:H;
    [by eauto|].
  apply reconcile_matched_Raise in H as (Hs & w & Hw & Hc & Hq).
  destruct (Hparse w Hw) as [z Hz]; [by eapply elem_of_sublist|].
  congruence.
Qed.

(** X3. [create_stocks] returns whenever every row whose code is in the
    identifier list has a quantity that is ">10", "1" or an integer; what
    the other rows hold does not matter. *)
Theorem create_stocks_returns (R : list watch) (ids : list string)
    (wh now : string) :
  (forall w, w ∈ R -> code w ∈ ids ->
     exists z, stock_of_quantity (quantity w) = Ok z) ->
  (exists out ids', Seller.create_stocks R ids = (Ok out, ids'))
  /\ (exists out ids', Market.create_stocks now R ids wh = (Ok out, ids')).
Proof.
  intros Hparse.
  rewrite seller_create_stocks_reconcile, market_create_stocks_reconcile.
  unfold reconcile. split.
  - destruct (reconcile_matched_returns seller_entry R [] ids Hparse)
      as (out & ids' & ->). eauto.
  - destruct (reconcile_matched_returns (market_entry wh now) R [] ids Hparse)
      as (out & ids' & ->). eauto.
Qed.

Lemma create_stocks_returns_witness :
  exists out ids',
    Seller.create_stocks
      [row (PyStr "A") (PyStr "3") PyNone;
       row (PyStr "Z") (PyStr "few") PyNone] ["A"; "B"]
    = (Ok out, ids').
Proof.
  refine (proj1 (create_stocks_returns
                   [row (PyStr "A") (PyStr "3") PyNone;
                    row (PyStr "Z") (PyStr "few") PyNone]
                   ["A"; "B"] "1" "now" _)).
  intros w Hw Hc.
  apply elem_of_cons in Hw as [->|Hw].
  - exists 3. vm_compute. reflexivity.
  - apply list_elem_of_singleton in Hw as ->. exfalso.
    vm_compute in Hc.
    apply elem_of_cons in Hc as [Hc|Hc]; [discriminate|].
    apply list_elem_of_singleton in Hc. discriminate.
Defined.

(** ** A report in two parts *)

Lemma reconcile_matched_app {E : Type} (entry : string -> Z -> E) R1 R2 :
  forall stocks ids,
  reconcile_matched entry (R1 ++ R2) stocks ids
  = match reconcile_matched entry R1 stocks ids with
    | (Ok stocks1, ids1) => reconcile_matched entry R2 stocks1 ids1
    | (Raise e, ids1) => (Raise e, ids1)
    end.
Proof.
  induction R1 as [|w R1 IH]; intros stocks ids; [done|].
  simpl. destruct (decide (code w ∈ ids)) as [Hin|Hin]; [|apply IH].
  destruct (stock_of_quantity (quantity w)) as [z|e]; [|done].
  destruct (list_remove (code w) ids) as [ids1|e]; [|done].
  apply IH.
Qed.

(** X4. The first loop of [create_stocks] on a report made of two parts is the
    loop on the first part followed by the loop on the second part, started
    from the entries and from the identifier list that the first part left;
    when the first part raises, the second is not looked at. *)
Theorem create_stocks_matched_app (R1 R2 : list watch) (ids wh now : _)
    (s1 : list Seller.stock_entry) (s2 : list Market.stock_entry) :
  Seller.create_stocks_matched (R1 ++ R2) s1 ids
  = match Seller.create_stocks_matched R1 s1 ids with
    | (Ok stocks, ids1) => Seller.create_stocks_matched R2 stocks ids1
    | (Raise e, ids1) => (Raise e, ids1)
    end
  /\ Market.create_stocks_matched (R1 ++ R2) wh now s2 ids
     = match Market.create_stocks_matched R1 wh now s2 ids with
       | (Ok stocks, ids1) => Market.create_stocks_matched R2 wh now stocks ids1
       | (Raise e, ids1) => (Raise e, ids1)
       end.
Proof.
  split.
  - rewrite (seller_matched_reconcile (R1 ++ R2)),
      (seller_matched_reconcile R1), reconcile_matched_app.
    destruct (reconcile_matched seller_entry R1 s1 ids) as [[stocks|e] ids1];
      [|done].
    symmetry. apply seller_matched_reconcile.
  - rewrite (market_matched_reconcile (R1 ++ R2)),
      (market_matched_reconcile R1), reconcile_matched_app.
    destruct (reconcile_matched (market_entry wh now) R1 s2 ids)
      as [[stocks|e] ids1]; [|done].
    symmetry. apply market_matched_reconcile.
Qed.

(** ** The entries for Yandex *)

(** X5. Every entry that the Yandex [create_stocks] returns carries the
    warehouse it was given and exactly one item, of type "FIT", stamped with
    the one clock reading taken before the loops. *)
Theorem market_entries_shape (R : list watch) (ids : list string)
    (wh now : string) (out : list Market.stock_entry) (ids' : list string) :
  Market.create_stocks now R ids wh = (Ok out, ids') ->
  Forall (fun e =>
            Market.warehouseId e = wh
            /\ exists c, Market.stock_items e
                         = [{| Market.count := c;
                               Market.item_type := "FIT";
                               Market.updatedAt := now |}]) out.
Proof.
  rewrite market_create_stocks_reconcile. intros H.
  apply reconcile_Ok in H as (matched & -> & _).
  apply Forall_app. split; apply Forall_forall; intros e He;
    apply list_elem_of_fmap in He as (m & -> & _); simpl; eauto.
Qed.

Lemma market_entries_shape_witness :
  Forall (fun e =>
            Market.warehouseId e = "1"
            /\ exists c, Market.stock_items e
                         = [{| Market.count := c;
                               Market.item_type := "FIT";
                               Market.updatedAt := "2025-10-19T12:00:00Z" |}])
    [market_entry "1" "2025-10-19T12:00:00Z" "A123" 100;
     market_entry "1" "2025-10-19T12:00:00Z" "B456" 0].
Proof.
  apply (market_entries_shape [row (PyStr "A123") (PyStr ">10") PyNone]
           ["A123"; "B456"] "1" "2025-10-19T12:00:00Z" _ ["B456"]).
  vm_compute. reflexivity.
Defined.

(** X6. The two marketplaces are reconciled alike: on the same report and the
    same identifier list, the two [create_stocks] return, entry for entry,
    the same identifiers with the same stocks, raise the same exception, and
    leave the same list. *)
Theorem create_stocks_agree (R : list watch) (ids : list string)
    (wh now : string) :
  map_run (fun e => (Seller.offer_id e, Seller.stock e))
    (Seller.create_stocks R ids)
  = map_run (fun e => (Market.sku e, market_count e))
      (Market.create_stocks now R ids wh).
Proof.
  rewrite seller_create_stocks_reconcile, market_create_stocks_reconcile.
  by rewrite !reconcile_natural.
Qed.

(** ** A second run on the same list object *)

Lemma create_stocks_on_consumed_list_witness :
  Seller.create_stocks [row (PyStr "A123") (PyStr ">10") PyNone] ["B456"]
  = (Ok (map (fun offer_id => seller_entry offer_id 0) ["B456"]), ["B456"]).
Proof.
  apply (create_stocks_on_consumed_list
           [row (PyStr "A123") (PyStr ">10") PyNone] ["A123"; "B456"]
           [seller_entry "A123" 100; seller_entry "B456" 0]).
  - apply NoDup_cons. split; [|apply NoDup_singleton].
    intros Hin. apply list_elem_of_singleton in Hin. discriminate.
  - vm_compute. reflexivity.
Defined.

(** ** What [price_conversion] returns *)

Lemma all_digits_filter l : all_digits (List.filter is_digit l).
Proof.
  apply Forall_forall. intros c Hc. apply list_elem_of_In in Hc.
  by apply List.filter_In in Hc as [_ Hc].
Qed.

(** X8. Whatever the text, [price_conversion] returns ASCII digits only, and
    gives its own result back when applied to it. *)
Theorem price_conversion_idempotent (v : pyval) (d : string) :
  Seller.price_conversion v = Ok d ->
  all_digits (list_ascii_of_string d)
  /\ Seller.price_conversion (PyStr d) = Ok d.
Proof.
  destruct v as [|s|z]; simpl; [done| |done]. intros [= <-].
  rewrite list_ascii_of_string_of_list_ascii.
  set (l := List.filter is_digit _).
  assert (Hl : all_digits l) by apply all_digits_filter.
  split; [done|].
  rewrite split_on_head_whole by (by apply all_digits_no_point).
  by rewrite filter_all_digits.
Qed.

Lemma price_conversion_idempotent_witness :
  all_digits (list_ascii_of_string "12340")
  /\ Seller.price_conversion (PyStr "12340") = Ok "12340".
Proof.
  apply (price_conversion_idempotent (PyStr "12 340.00 руб.")).
  vm_compute. reflexivity.
Defined.

(** ** The price updates *)

Lemma seller_prices_from_shape R : forall prices ids out,
  Seller.create_prices_from R prices ids = Ok out ->
  exists new,
    out = prices ++ new
    /\ map Seller.price_offer_id new = filter (fun c => c ∈ ids) (map code R)
    /\ Forall (fun p =>
                 Seller.auto_action_enabled p = "UNKNOWN"
                 /\ Seller.currency_code p = "RUB"
                 /\ Seller.old_price p = "0"
                 /\ all_digits (list_ascii_of_string (Seller.price p))) new.
Proof.
  induction R as [|w R IH]; intros prices ids out H; simpl in H.
  - injection H as <-. exists []. by rewrite app_nil_r.
  - fold (code w) in H. simpl. destruct (decide (code w ∈ ids)) as [Hin|Hin].
    + destruct (Seller.price_conversion (dict_get "Цена" w)) as [d|e] eqn:Hd;
        [|done].
      simpl in H. destruct (IH _ _ _ H) as (new & -> & Hids & Hall).
      eexists (_ :: new). split_and!.
      * by rewrite <- app_assoc.
      * rewrite filter_cons_True by done. simpl. by rewrite Hids.
      * constructor; [|done]. simpl. split_and!; [done..|].
        by apply price_conversion_idempotent in Hd as [Hd _].
    + destruct (IH _ _ _ H) as (new & -> & Hids & Hall).
      exists new. split_and!; [done| |done].
      by rewrite filter_cons_False.
Qed.

(** X9. The Ozon [create_prices] returns one price update for each row of the
    report whose code is in the identifier list, in the order of the report
    (a code that occurs in several rows is priced as many times). Each
    update names the currency "RUB", the old price "0", the setting
    "UNKNOWN", and a price made of digits only. *)
Theorem seller_create_prices_shape (R : list watch) (ids : list string)
    (prices : list Seller.price_entry) :
  Seller.create_prices R ids = Ok prices ->
  map Seller.price_offer_id prices = filter (fun c => c ∈ ids) (map code R)
  /\ Forall (fun p =>
               Seller.auto_action_enabled p = "UNKNOWN"
               /\ Seller.currency_code p = "RUB"
               /\ Seller.old_price p = "0"
               /\ all_digits (list_ascii_of_string (Seller.price p))) prices.
Proof.
  intros H. apply seller_prices_from_shape in H as (new & -> & Hids & Hall).
  done.
Qed.

Lemma seller_create_prices_shape_witness :
  map Seller.price_offer_id
    [ {| Seller.auto_action_enabled := "UNKNOWN";
         Seller.currency_code := "RUB";
         Seller.price_offer_id := "A123";
         Seller.old_price := "0";
         Seller.price := "5990" |};
      {| Seller.auto_action_enabled := "UNKNOWN";
         Seller.currency_code := "RUB";
         Seller.price_offer_id := "A123";
         Seller.old_price := "0";
         Seller.price := "6100" |} ]
  = filter (fun c => c ∈ ["A123"; "B456"])
      (map code [row (PyStr "A123") PyNone (PyStr "5'990.00 руб.");
                 row (PyStr "Z000") PyNone PyNone;
                 row (PyStr "A123") PyNone (PyStr "6'100.00 руб.")]).
Proof.
  apply (seller_create_prices_shape
           [row (PyStr "A123") PyNone (PyStr "5'990.00 руб.");
            row (PyStr "Z000") PyNone PyNone;
            row (PyStr "A123") PyNone (PyStr "6'100.00 руб.")]
           ["A123"; "B456"]).
  vm_compute. reflexivity.
Defined.

Lemma seller_prices_from_outcome R : forall prices ids,
  match Seller.create_prices_from R prices ids with
  | Ok _ =>
      forall w, w ∈ R -> code w ∈ ids -> exists s, dict_get "Цена" w = PyStr s
  | Raise e =>
      e = AttributeError
      /\ exists w, w ∈ R /\ code w ∈ ids
           /\ forall s, dict_get "Цена" w <> PyStr s
  end.
Proof.
  induction R as [|w R IH]; intros prices ids; simpl.
  - intros w Hw. by apply elem_of_nil in Hw.
  - fold (code w). destruct (decide (code w ∈ ids)) as [Hin|Hin].
    + destruct (dict_get "Цена" w) as [|s|z] eqn:Hp; simpl.
      * split; [done|]. exists w.
        split_and!; [apply list_elem_of_here|done|by rewrite Hp].
      * specialize (IH (prices ++ [{|
            Seller.auto_action_enabled := "UNKNOWN";
            Seller.currency_code := "RUB";
            Seller.price_offer_id := code w;
            Seller.old_price := "0";
            Seller.price :=
              string_of_list_ascii
                (List.filter is_digit
                   (hd [] (split_on "." (list_ascii_of_string s)))) |}]) ids).
        destruct (Seller.create_prices_from R _ ids) as [out|e].
        -- intros w' Hw' Hc. apply elem_of_cons in Hw' as [->|Hw'].
           ++ by exists s.
           ++ by apply IH.
        -- destruct IH as (-> & w' & Hw' & Hc & Hn). split; [done|].
           exists w'. split_and!; [|done..]. apply elem_of_cons. by right.
      * split; [done|]. exists w.
        split_and!; [apply list_elem_of_here|done|by rewrite Hp].
    + specialize (IH prices ids).
      destruct (Seller.create_prices_from R prices ids) as [out|e].
      * intros w' Hw' Hc. apply elem_of_cons in Hw' as [->|Hw']; [done|].
        by apply IH.
      * destruct IH as (-> & w' & Hw' & Hc & Hn). split; [done|].
        exists w'. split_and!; [|done..]. apply elem_of_cons. by right.
Qed.

(** X10. The Ozon [create_prices] returns exactly when every row whose code is in
    the identifier list has a text in its price cell. Otherwise it raises
    [AttributeError] (a missing price, or a number, has no [split]); rows
    whose code is not in the list are not looked at. *)
Theorem seller_create_prices_outcome (R : list watch) (ids : list string) :
  ((exists prices, Seller.create_prices R ids = Ok prices)
   <-> forall w, w ∈ R -> code w ∈ ids ->
         exists s, dict_get "Цена" w = PyStr s)
  /\ (forall e, Seller.create_prices R ids = Raise e -> e = AttributeError).
Proof.
  unfold Seller.create_prices.
  pose proof (seller_prices_from_outcome R [] ids) as H.
  destruct (Seller.create_prices_from R [] ids) as [out|e].
  - split; [|done]. split; [done|by eauto].
  - destruct H as (-> & w & Hw & Hc & Hn). split.
    + split; [by intros [? ?]|]. intros Hall.
      destruct (Hall w Hw Hc) as [s Hs]. by apply Hn in Hs.
    + by intros e [= <-].
Qed.

Lemma seller_create_prices_outcome_witness :
  AttributeError = AttributeError.
Proof.
  apply (proj2 (seller_create_prices_outcome
                  [row (PyStr "A123") PyNone (PyInt 5990)] ["A123"])).
  vm_compute. reflexivity.
Defined.

Lemma py_int_digits_nonneg d v :
  all_digits (list_ascii_of_string d) -> py_int (PyStr d) = Ok v -> 0 <= v.
Proof.
  intros Hd. simpl. destruct (parse_int d) as [z|] eqn:Hp; [|done].
  intros [= <-]. destruct (parse_int_sign _ _ Hp) as [?|[l Hl]]; [done|].
  rewrite strip_all_digits in Hl by done. rewrite Hl in Hd.
  by inversion Hd.
Qed.

Lemma py_int_digits_defined d :
  all_digits (list_ascii_of_string d) -> d <> "" ->
  exists v, py_int (PyStr d) = Ok v.
Proof.
  intros Hd Hne. simpl.
  rewrite <- (string_of_list_ascii_of_string d).
  rewrite parse_int_digits; [by eauto|done|].
  intros Hnil. apply Hne.
  by rewrite <- (string_of_list_ascii_of_string d), Hnil.
Qed.

(** The value that the Yandex [create_prices] gives to a price cell. *)
Lemma market_price_value (v : pyval) :
  match digits ← Seller.price_conversion v; py_int (PyStr digits) with
  | Ok z => 0 <= z /\ has_price_digits v
  | Raise e =>
      (e = AttributeError \/ e = ValueError) /\ ~ has_price_digits v
  end.
Proof.
  destruct (Seller.price_conversion v) as [d|e] eqn:Hd.
  - pose proof (price_conversion_idempotent _ _ Hd) as [Hall _].
    destruct v as [|s|z0]; [done| |done].
    change (match py_int (PyStr d) with
            | Ok z => 0 <= z /\ has_price_digits (PyStr s)
            | Raise e => (e = AttributeError \/ e = ValueError)
                         /\ ~ has_price_digits (PyStr s)
            end).
    destruct (decide (d = "")) as [->|Hne].
    + split; [by right|]. intros (s' & d' & [= <-] & Hd' & Hne).
      congruence.
    + destruct (py_int_digits_defined d Hall Hne) as [z Hz]. rewrite Hz.
      split; [by eapply py_int_digits_nonneg|]. by exists s, d.
  - destruct v as [|s|z0]; [|done|]; simpl in Hd; injection Hd as <-;
      (split; [by left|]); by intros (s' & d' & [=] & _).
Qed.

Lemma market_prices_from_shape R : forall prices ids out,
  Market.create_prices_from R prices ids = Ok out ->
  exists new,
    out = prices ++ new
    /\ map Market.price_id new = filter (fun c => c ∈ ids) (map code R)
    /\ Forall (fun p => 0 <= Market.value (Market.price p)
                        /\ Market.currencyId (Market.price p) = "RUR") new.
Proof.
  induction R as [|w R IH]; intros prices ids out H; simpl in H.
  - injection H as <-. exists []. by rewrite app_nil_r.
  - fold (code w) in H. simpl. destruct (decide (code w ∈ ids)) as [Hin|Hin].
    + pose proof (market_price_value (dict_get "Цена" w)) as Hv.
      destruct (Seller.price_conversion (dict_get "Цена" w)) as [d|e];
        [|done].
      simpl in H, Hv. destruct (parse_int d) as [v|]; [|done].
      simpl in H. destruct (IH _ _ _ H) as (new & -> & Hids & Hall).
      eexists (_ :: new). split_and!.
      * by rewrite <- app_assoc.
      * rewrite filter_cons_True by done. simpl. by rewrite Hids.
      * constructor; [|done]. simpl. by destruct Hv.
    + destruct (IH _ _ _ H) as (new & -> & Hids & Hall).
      exists new. split_and!; [done| |done].
      by rewrite filter_cons_False.
Qed.

Lemma market_prices_from_outcome R : forall prices ids,
  match Market.create_prices_from R prices ids with
  | Ok _ =>
      forall w, w ∈ R -> code w ∈ ids -> has_price_digits (dict_get "Цена" w)
  | Raise e =>
      (e = AttributeError \/ e = ValueError)
      /\ exists w, w ∈ R /\ code w ∈ ids
           /\ ~ has_price_digits (dict_get "Цена" w)
  end.
Proof.
  induction R as [|w R IH]; intros prices ids; simpl.
  - intros w Hw. by apply elem_of_nil in Hw.
  - fold (code w). destruct (decide (code w ∈ ids)) as [Hin|Hin].
    + pose proof (market_price_value (dict_get "Цена" w)) as Hv.
      destruct (Seller.price_conversion (dict_get "Цена" w)) as [d|e];
        simpl in *.
      * destruct (parse_int d) as [v|]; simpl.
        -- specialize (IH (prices ++ [{|
               Market.price_id := code w;
               Market.price := {| Market.value := v;
                                  Market.currencyId := "RUR" |} |}]) ids).
           destruct (Market.create_prices_from R _ ids) as [out|e].
           ++ intros w' Hw' Hc. apply elem_of_cons in Hw' as [->|Hw'].
              ** by destruct Hv.
              ** by apply IH.
           ++ destruct IH as (He & w' & Hw' & Hc & Hn). split; [done|].
              exists w'. split_and!; [|done..]. apply elem_of_cons. by right.
        -- destruct Hv as [He Hn]. split; [done|]. exists w.
           split_and!; [apply list_elem_of_here|done..].
      * destruct Hv as [He Hn]. split; [done|]. exists w.
        split_and!; [apply list_elem_of_here|done..].
    + specialize (IH prices ids).
      destruct (Market.create_prices_from R prices ids) as [out|e].
      * intros w' Hw' Hc. apply elem_of_cons in Hw' as [->|Hw']; [done|].
        by apply IH.
      * destruct IH as (He & w' & Hw' & Hc & Hn). split; [done|].
        exists w'. split_and!; [|done..]. apply elem_of_cons. by right.
Qed.

(** X11. The Yandex [create_prices] returns one price update for each row of the
    report whose code is in the identifier list, in the order of the
    report, each in the currency "RUR" and with a value that is never
    negative. *)
Theorem market_create_prices_shape (R : list watch) (ids : list string)
    (prices : list Market.price_entry) :
  Market.create_prices R ids = Ok prices ->
  map Market.price_id prices = filter (fun c => c ∈ ids) (map code R)
  /\ Forall (fun p => 0 <= Market.value (Market.price p)
                      /\ Market.currencyId (Market.price p) = "RUR") prices.
Proof.
  intros H. apply market_prices_from_shape in H as (new & -> & Hids & Hall).
  done.
Qed.

Lemma market_create_prices_shape_witness :
  map Market.price_id
    [ {| Market.price_id := "A123";
         Market.price := {| Market.value := 5990;
                            Market.currencyId := "RUR" |} |} ]
  = filter (fun c => c ∈ ["A123"])
      (map code [row (PyStr "A123") PyNone (PyStr "5'990.00 руб.");
                 row (PyStr "Z000") PyNone (PyStr "-")]).
Proof.
  apply (market_create_prices_shape
           [row (PyStr "A123") PyNone (PyStr "5'990.00 руб.");
            row (PyStr "Z000") PyNone (PyStr "-")] ["A123"]).
  vm_compute. reflexivity.
Defined.

(** X12. The Yandex [create_prices] returns exactly when every row whose code is
    in the identifier list has a price text with a digit before its first
    point. Otherwise it raises: [AttributeError] when the cell holds no
    text, [ValueError] when the text has no such digit, [int] being applied
    to the empty string. *)
Theorem market_create_prices_outcome (R : list watch) (ids : list string) :
  ((exists prices, Market.create_prices R ids = Ok prices)
   <-> forall w, w ∈ R -> code w ∈ ids ->
         has_price_digits (dict_get "Цена" w))
  /\ (forall e, Market.create_prices R ids = Raise e ->
        e = AttributeError \/ e = ValueError).
Proof.
  unfold Market.create_prices.
  pose proof (market_prices_from_outcome R [] ids) as H.
  destruct (Market.create_prices_from R [] ids) as [out|e].
  - split; [|done]. split; [done|by eauto].
  - destruct H as (He & w & Hw & Hc & Hn). split.
    + split; [by intros [? ?]|]. intros Hall. by destruct (Hn (Hall w Hw Hc)).
    + by intros e' [= <-].
Qed.

Lemma market_create_prices_outcome_witness :
  ValueError = AttributeError \/ ValueError = ValueError.
Proof.
  apply (proj2 (market_create_prices_outcome
                  [row (PyStr "A123") PyNone (PyStr "по запросу")]
                  ["A123"])).
  vm_compute. reflexivity.
Defined.

(** X13. A price text without a digit before its first point, in a row whose code
    is in the identifier list: Ozon is sent a price update with the empty
    string as price, and the Yandex reconciliation raises [ValueError]. *)
Theorem price_without_digits (w : watch) (ids : list string) (s : string) :
  code w ∈ ids ->
  dict_get "Цена" w = PyStr s ->
  Seller.price_conversion (PyStr s) = Ok "" ->
  Seller.create_prices [w] ids
  = Ok [ {| Seller.auto_action_enabled := "UNKNOWN";
            Seller.currency_code := "RUB";
            Seller.price_offer_id := code w;
            Seller.old_price := "0";
            Seller.price := "" |} ]
  /\ Market.create_prices [w] ids = Raise ValueError.
Proof.
  intros Hin Hp Hd. unfold Seller.create_prices, Market.create_prices. simpl.
  fold (code w). rewrite !decide_True by done. rewrite Hp.
  simpl in Hd. injection Hd as Hd. simpl. rewrite Hd. done.
Qed.

Lemma price_without_digits_witness :
  Market.create_prices [row (PyStr "A123") PyNone (PyStr ".99 руб.")]
    ["A123"]
  = Raise ValueError.
Proof.
  refine (proj2 (price_without_digits
                   (row (PyStr "A123") PyNone (PyStr ".99 руб."))
                   ["A123"] ".99 руб." _ _ _)).
  - vm_compute. apply list_elem_of_here.
  - reflexivity.
  - reflexivity.
Defined.

(** ** More on the batcher *)

(** X14. A chunk size that is not positive: with zero, running [divide] raises
    [ValueError] (the step of a [range] must not be zero); with a negative
    size it yields no chunk at all, whatever the list holds. *)
Theorem divide_nonpositive {A : Type} (lst : list A) (n : Z) :
  (n = 0 -> Seller.divide lst n = Raise ValueError)
  /\ (n < 0 -> Seller.divide lst n = Ok []).
Proof.
  unfold Seller.divide, py_range. split; intros Hn.
  - by rewrite decide_True.
  - rewrite decide_False by lia. simpl. unfold range_length.
    destruct (Z.ltb_spec 0 n) as [?|_]; [lia|].
    replace (Z.to_nat ((0 - Z.of_nat (length lst) - n - 1) / - n))
      with 0%nat; [done|].
    destruct (Z.le_gt_cases 0 (0 - Z.of_nat (length lst) - n - 1)).
    + rewrite Z.div_small; lia.
    + pose proof (Z.div_lt_upper_bound
                    (0 - Z.of_nat (length lst) - n - 1) (- n) 0). lia.
Qed.

Lemma divide_nonpositive_witness :
  Seller.divide [1; 2; 3] (-2) = Ok [].
Proof. apply (proj2 (divide_nonpositive [1; 2; 3] (-2))). lia. Defined.

(** X15. For a positive [n], [divide] yields the number of elements divided by
    [n], rounded up, chunks; and the [j]-th element of the [i]-th chunk is
    the element of the list at position [i * n + j]. *)
Theorem divide_positions {A : Type} (lst : list A) (n : Z)
    (chunks : list (list A)) :
  0 < n ->
  Seller.divide lst n = Ok chunks ->
  Z.of_nat (length chunks) = (Z.of_nat (length lst) + n - 1) / n
  /\ forall i j : nat, (j < Z.to_nat n)%nat ->
       chunks !! i ≫= (fun chunk => chunk !! j)
       = lst !! (i * Z.to_nat n + j)%nat.
Proof.
  intros Hn. rewrite divide_chunks by done. intros [= <-].
  destruct (range_length_bounds (length lst) n Hn) as [Hcover Hstart].
  split.
  - rewrite length_map, length_seq. unfold range_length.
    destruct (Z.ltb_spec 0 n) as [_|?]; [|lia].
    rewrite Z2Nat.id; [f_equal; lia|]. apply Z.div_pos; lia.
  - intros i j Hj.
    set (c := range_length 0 (Z.of_nat (length lst)) n) in *.
    set (m := Z.to_nat n) in *.
    change map with (@fmap list _). rewrite list_lookup_fmap.
    destruct (decide (i < c)%nat) as [Hi|Hi].
    + rewrite lookup_seq_lt by done. simpl.
      rewrite lookup_take_lt by done. rewrite lookup_drop. f_equal.
    + rewrite lookup_seq_ge by lia. simpl. symmetry.
      apply lookup_ge_None. nia.
Qed.

Lemma divide_positions_witness :
  Z.of_nat (length [[1; 2]; [3; 4]; [5]]) = (Z.of_nat 5 + 2 - 1) / 2
  /\ forall i j : nat, (j < Z.to_nat 2)%nat ->
       [[1; 2]; [3; 4]; [5]] !! i ≫= (fun chunk => chunk !! j)
       = [1; 2; 3; 4; 5] !! (i * Z.to_nat 2 + j)%nat.
Proof.
  apply (divide_positions [1; 2; 3; 4; 5] 2); [lia|].
  vm_compute. reflexivity.
Defined.

(** ** Sending the batches *)

Lemma send_each_spec {B : Type} (send : B -> result unit) batches :
  forall sent outcome,
  Seller.send_each send batches = (sent, outcome) ->
  sent `prefix_of` batches
  /\ match outcome with
     | Ok _ => sent = batches /\ Forall (fun b => send b = Ok ()) batches
     | Raise e =>
         exists accepted refused,
           sent = accepted ++ [refused]
           /\ Forall (fun b => send b = Ok ()) accepted
           /\ send refused = Raise e
     end.
Proof.
  induction batches as [|b batches IH]; intros sent outcome H; simpl in H.
  - injection H as <- <-. done.
  - destruct (send b) as [[]|e] eqn:Hb.
    + destruct (Seller.send_each send batches) as [sent' outcome'] eqn:Hrest.
      injection H as <- <-. destruct (IH _ _ eq_refl) as [Hpre Hout].
      split; [by apply prefix_cons|].
      destruct outcome' as [[]|e].
      * destruct Hout as [-> Hall]. split; [done|]. by constructor.
      * destruct Hout as (accepted & refused & -> & Hall & Href).
        exists (b :: accepted), refused. split_and!; [done| |done].
        by constructor.
    + injection H as <- <-. split.
      * by exists batches.
      * exists [], b. done.
Qed.

Lemma divide_bounded {A : Type} (lst : list A) (n : Z) :
  0 < n ->
  exists batches,
    Seller.divide lst n = Ok batches
    /\ concat batches = lst
    /\ Forall (fun b => 1 <= Z.of_nat (length b) <= n) batches.
Proof.
  intros Hn.
  assert (Hd : exists chunks, Seller.divide lst n = Ok chunks)
    by (apply divide_nonzero; lia).
  destruct Hd as [chunks Hd]. exists chunks. split; [done|].
  pose proof (divide_chunks lst n Hn) as Hc. rewrite Hd in Hc.
  injection Hc as ->.
  destruct (range_length_bounds (length lst) n Hn) as [Hcover Hstart].
  split.
  - rewrite concat_chunks. apply take_ge. lia.
  - apply Forall_forall. intros b Hb. apply list_elem_of_fmap in Hb
      as (k & -> & Hk). apply elem_of_seq in Hk as [_ Hk]. simpl in Hk.
    specialize (Hstart _ Hk). rewrite length_take, length_drop. lia.
Qed.

(** X16. [upload_stocks] of seller.py, run against any marketplace. Nothing is
    sent when the identifiers cannot be fetched or [create_stocks] raises.
    Otherwise the reconciled entries are cut in batches of at most 100 that
    are sent in order; as soon as one is refused the function raises and no
    further batch is sent; when all are accepted it returns the entries
    whose stock is not zero and all the entries, and what was sent adds up
    to all the entries. *)
Theorem upload_stocks_requests
    (update_stocks : list Seller.stock_entry -> result unit)
    (fetched : result (list string)) (R : list watch) :
  match fetched ≫= (fun ids => (Seller.create_stocks R ids).1) with
  | Raise e => Seller.upload_stocks update_stocks fetched R = ([], Raise e)
  | Ok stocks =>
      exists batches sent outcome,
        Seller.upload_stocks update_stocks fetched R = (sent, outcome)
        /\ concat batches = stocks
        /\ Forall (fun b => 1 <= Z.of_nat (length b) <= 100) batches
        /\ sent `prefix_of` batches
        /\ match outcome with
           | Ok (not_empty, all) =>
               sent = batches /\ all = stocks
               /\ not_empty
                  = List.filter (fun e => negb (Z.eqb (Seller.stock e) 0))
                      stocks
           | Raise e =>
               exists accepted refused,
                 sent = accepted ++ [refused]
                 /\ Forall (fun b => update_stocks b = Ok ()) accepted
                 /\ update_stocks refused = Raise e
           end
  end.
Proof.
  unfold Seller.upload_stocks.
  destruct fetched as [ids|e]; [|done].
  cbv beta iota delta [mbind result_bind].
  destruct (Seller.create_stocks R ids).1 as [stocks|e]; [|done].
  destruct (divide_bounded stocks 100) as (batches & Hd & Hcat & Hlen); [lia|].
  rewrite Hd.
  destruct (Seller.send_each update_stocks batches) as [sent outcome] eqn:Hs.
  apply send_each_spec in Hs as [Hpre Hout].
  exists batches, sent. eexists. split; [done|]. split_and!; [done..|].
  destruct outcome as [[]|e]; [|done]. by destruct Hout.
Qed.

(** X17. The entries that [upload_stocks] reports as not empty all come from a
    row of the report: a zero-filled identifier is never among them, nor
    is a row whose quantity reads "1". *)
Theorem upload_stocks_not_empty
    (update_stocks : list Seller.stock_entry -> result unit)
    (ids : list string) (R : list watch)
    (sent : list (list Seller.stock_entry))
    (not_empty all : list Seller.stock_entry) :
  Seller.upload_stocks update_stocks (Ok ids) R
  = (sent, Ok (not_empty, all)) ->
  Forall (fun e =>
            Seller.stock e <> 0
            /\ exists w, w ∈ R /\ code w = Seller.offer_id e
                 /\ py_str (quantity w) <> "1"
                 /\ stock_of_quantity (quantity w) = Ok (Seller.stock e))
    not_empty.
Proof.
  intros H.
  pose proof (upload_stocks_requests update_stocks (Ok ids) R) as Hreq.
  simpl in Hreq.
  destruct (Seller.create_stocks R ids) as [[stocks|e] ids'] eqn:Hc;
    simpl in Hreq; [|by rewrite H in Hreq].
  destruct Hreq as (batches & sent' & outcome & Hup & _ & _ & _ & Hout).
  rewrite H in Hup. injection Hup as <- <-.
  destruct Hout as (_ & -> & ->).
  rewrite seller_create_stocks_reconcile in Hc.
  pose proof (reconcile_stocks seller_entry Seller.stock Seller.offer_id
                _ _ _ _ (fun _ _ => eq_refl) (fun _ _ => eq_refl) Hc) as Hall.
  apply Forall_forall. intros e He. apply list_elem_of_In in He.
  apply List.filter_In in He as [He Hnz].
  apply negb_true_iff, Z.eqb_neq in Hnz. split; [done|].
  apply list_elem_of_In in He.
  destruct (proj1 (Forall_forall _ _) Hall e He) as [?|(w & Hw & Hcode & Hz)];
    [done|].
  exists w. split_and!; [done..| |done].
  intros Hone. unfold stock_of_quantity in Hz. rewrite Hone in Hz.
  simpl in Hz. congruence.
Qed.

Lemma upload_stocks_not_empty_witness :
  Forall (fun e =>
            Seller.stock e <> 0
            /\ exists w, w ∈ [row (PyStr "A123") (PyStr ">10") PyNone;
                             row (PyStr "B456") (PyStr "1") PyNone]
                 /\ code w = Seller.offer_id e
                 /\ py_str (quantity w) <> "1"
                 /\ stock_of_quantity (quantity w) = Ok (Seller.stock e))
    [seller_entry "A123" 100].
Proof.
  apply (upload_stocks_not_empty (fun _ => Ok ()) ["A123"; "B456"; "C789"]
           [row (PyStr "A123") (PyStr ">10") PyNone;
            row (PyStr "B456") (PyStr "1") PyNone]
           [[seller_entry "A123" 100; seller_entry "B456" 0;
             seller_entry "C789" 0]]
           _
           [seller_entry "A123" 100; seller_entry "B456" 0;
            seller_entry "C789" 0]).
  vm_compute. reflexivity.
Defined.

(** X18. [upload_prices] of both files, run against any marketplace. Nothing is
    sent when the identifiers cannot be fetched or [create_prices] raises.
    Otherwise the price updates are cut in batches of at most 1000 for Ozon
    and at most 500 for Yandex, sent in order up to the first one that is
    refused; when all are accepted the function returns the price updates,
    and what was sent adds up to them. *)
Theorem upload_prices_requests
    (seller_update : list Seller.price_entry -> result unit)
    (market_update : list Market.price_entry -> result unit)
    (fetched : result (list string)) (R : list watch) :
  match fetched ≫= Seller.create_prices R with
  | Raise e => Seller.upload_prices seller_update fetched R = ([], Raise e)
  | Ok prices =>
      exists batches sent outcome,
        Seller.upload_prices seller_update fetched R = (sent, outcome)
        /\ concat batches = prices
        /\ Forall (fun b => 1 <= Z.of_nat (length b) <= 1000) batches
        /\ sent `prefix_of` batches
        /\ match outcome with
           | Ok returned => sent = batches /\ returned = prices
           | Raise e =>
               exists accepted refused,
                 sent = accepted ++ [refused]
                 /\ Forall (fun b => seller_update b = Ok ()) accepted
                 /\ seller_update refused = Raise e
           end
  end
  /\ match fetched ≫= Market.create_prices R with
     | Raise e => Market.upload_prices market_update fetched R = ([], Raise e)
     | Ok prices =>
         exists batches sent outcome,
           Market.upload_prices market_update fetched R = (sent, outcome)
           /\ concat batches = prices
           /\ Forall (fun b => 1 <= Z.of_nat (length b) <= 500) batches
           /\ sent `prefix_of` batches
           /\ match outcome with
              | Ok returned => sent = batches /\ returned = prices
              | Raise e =>
                  exists accepted refused,
                    sent = accepted ++ [refused]
                    /\ Forall (fun b => market_update b = Ok ()) accepted
                    /\ market_update refused = Raise e
              end
     end.
Proof.
  split.
  - unfold Seller.upload_prices. destruct fetched as [ids|e]; [|done].
    cbv beta iota delta [mbind result_bind].
    destruct (Seller.create_prices R ids) as [prices|e]; [|done].
    destruct (divide_bounded prices 1000) as (batches & Hd & Hcat & Hlen);
      [lia|].
    rewrite Hd.
    destruct (Seller.send_each seller_update batches) as [sent outcome] eqn:Hs.
    apply send_each_spec in Hs as [Hpre Hout].
    exists batches, sent. eexists. split; [done|]. split_and!; [done..|].
    destruct outcome as [[]|e]; [|done]. by destruct Hout.
  - unfold Market.upload_prices. destruct fetched as [ids|e]; [|done].
    cbv beta iota delta [mbind result_bind].
    destruct (Market.create_prices R ids) as [prices|e]; [|done].
    destruct (divide_bounded prices 500) as (batches & Hd & Hcat & Hlen);
      [lia|].
    rewrite Hd.
    destruct (Seller.send_each market_update batches) as [sent outcome] eqn:Hs.
    apply send_each_spec in Hs as [Hpre Hout].
    exists batches, sent. eexists. split; [done|]. split_and!; [done..|].
    destruct outcome as [[]|e]; [|done]. by destruct Hout.
Qed.

(** ** The requests of [main] *)

(** X19. [main] of seller.py, against a marketplace that accepts every update.
    When [create_stocks] raises nothing is sent. Otherwise all the stock
    entries are sent first, in order, in batches of at most 100. The price
    updates, computed from the identifier list that [create_stocks] left,
    follow in batches of at most 900; when [create_prices] raises, the
    stock batches have been sent all the same. *)
Theorem main_sync_requests (ids : list string) (R : list watch) :
  match Seller.create_stocks R ids with
  | (Raise e, _) => Seller.main_sync ids R = ([], Raise e)
  | (Ok stocks, ids') =>
      exists stock_batches,
        concat stock_batches = stocks
        /\ Forall (fun b => 1 <= Z.of_nat (length b) <= 100) stock_batches
        /\ match Seller.create_prices R ids' with
           | Raise e =>
               Seller.main_sync ids R
               = (map Seller.UpdateStocks stock_batches, Raise e)
           | Ok prices =>
               exists price_batches,
                 concat price_batches = prices
                 /\ Forall (fun b => 1 <= Z.of_nat (length b) <= 900)
                      price_batches
                 /\ Seller.main_sync ids R
                    = (map Seller.UpdateStocks stock_batches
                       ++ map Seller.UpdatePrice price_batches, Ok ())
           end
  end.
Proof.
  unfold Seller.main_sync.
  destruct (Seller.create_stocks R ids) as [[stocks|e] ids']; [|done].
  cbv beta iota delta [mbind result_bind].
  destruct (divide_bounded stocks 100) as (sb & Hd & Hcat & Hlen); [lia|].
  rewrite Hd. exists sb. split_and!; [done..|].
  destruct (Seller.create_prices R ids') as [prices|e]; [|done].
  destruct (divide_bounded prices 900) as (pb & Hd' & Hcat' & Hlen'); [lia|].
  rewrite Hd'. by exists pb.
Qed.

(** ** What the pagination returns *)

(** X20. When [get_offer_ids] returns a list, the reply it stopped at is the
    first one to meet the stop condition, and the list is the identifiers of
    all the pages up to that reply, in the order received. For Ozon the
    list has as many identifiers as the total of that reply says; for
    Yandex that reply has an empty next-page token. *)
Theorem get_offer_ids_result
    (ozon : nat -> string -> result Seller.product_page)
    (yandex : nat -> option string -> result Market.offer_page)
    (fuel : nat) (ids : list string) :
  (Seller.get_offer_ids ozon fuel = Some (Ok ids) ->
   exists k p,
     (k < fuel)%nat
     /\ (forall j, (j < k)%nat -> ozon_stops ozon j = false)
     /\ ozon_reply ozon k = Ok p
     /\ Seller.resp_total p = Z.of_nat (length ids)
     /\ ids = map Seller.product_offer_id (ozon_fetched ozon (S k)))
  /\ (Market.get_offer_ids yandex fuel = Some (Ok ids) ->
      exists k p,
        (k < fuel)%nat
        /\ (forall j, (j < k)%nat -> yandex_stops yandex j = false)
        /\ yandex_reply yandex k = Ok p
        /\ Market.falsy (Market.nextPageToken p) = true
        /\ ids = map Market.shopSku (yandex_fetched yandex (S k))).
Proof.
  split; intros H.
  - destruct (first_true (ozon_stops ozon) fuel)
      as [Hnone|(k & Hk & Hstop & Hmin)].
    { by rewrite (ozon_runs_on ozon fuel Hnone) in H. }
    rewrite (ozon_returns_at ozon k fuel Hmin Hstop Hk) in H.
    unfold ozon_outcome, ozon_stops in *.
    destruct (ozon_reply ozon k) as [p|e] eqn:Hp; [|done].
    injection H as <-. exists k, p. split_and!; [done..| |done].
    apply bool_decide_eq_true in Hstop. by rewrite length_map.
  - destruct (first_true (yandex_stops yandex) fuel)
      as [Hnone|(k & Hk & Hstop & Hmin)].
    { by rewrite (yandex_runs_on yandex fuel Hnone) in H. }
    rewrite (yandex_returns_at yandex k fuel Hmin Hstop Hk) in H.
    unfold yandex_outcome, yandex_stops in *.
    destruct (yandex_reply yandex k) as [p|e] eqn:Hp; [|done].
    injection H as <-. by exists k, p.
Qed.

Lemma get_offer_ids_result_witness :
  let two_pages (call : nat) (page : option string) :=
    match call with
    | O => Ok {| Market.offerMappingEntries := [{| Market.shopSku := "A123" |}];
                 Market.nextPageToken := Some "p2" |}
    | _ => Ok {| Market.offerMappingEntries := [{| Market.shopSku := "B456" |}];
                 Market.nextPageToken := None |}
    end in
  exists k p,
    (k < 3)%nat
    /\ (forall j, (j < k)%nat -> yandex_stops two_pages j = false)
    /\ yandex_reply two_pages k = Ok p
    /\ Market.falsy (Market.nextPageToken p) = true
    /\ ["A123"; "B456"] = map Market.shopSku (yandex_fetched two_pages (S k)).
Proof.
  intros two_pages.
  apply (proj2 (get_offer_ids_result ozon_stuck two_pages 3 ["A123"; "B456"])).
  reflexivity.
Defined.

(** ** The working directory of [download_stock] *)

Section DownloadStockFrame.

Context {content : Type}.
Variable unzip : content -> result (list (string * content)).
Variable read_excel : content -> result (list watch).


End DownloadStockFrame.

